(** * WorkflowGene: profile bootstrap and row-level access control

    A shallow embedding of

    - [supabase/migrations/20250930132131_mellow_forest.sql]: the row-level
      security policies on [profiles] and on [analytics], the trigger
      function [handle_new_user], the super-admin [DO] block and
      [get_user_profile];
    - [src/lib/auth.js] and [src/lib/supabase.js]: the facade
      ([getCurrentUser], [getCurrentProfile], [signIn], [signUp],
      [signOut], [resetPassword], [updatePassword], [updateProfile],
      [ensureSuperAdmin]), [isSupabaseConfigured], [clearInvalidSession]
      and [testConnection];
    - [src/pages/auth/Login.jsx]: [handleSubmit].

    The [profiles] table is a list of rows; SQL statements are functions on
    that list.  A policy is its [USING] and [WITH CHECK] expressions as
    the migration writes them; a statement of a caller first passes the
    rewriter, which adds the policies to it and refuses a policy that
    reads its own table, and is then run on the rows that the policies
    let through.  PL/pgSQL exceptions and JavaScript exceptions are
    explicit results.  What the code receives from outside the source
    tree (the answer of [supabase.auth.*], the clock, an error raised by
    the store for a reason that the source does not determine) is an
    argument of the function that receives it. *)

From Stdlib Require Import String Ascii List Bool Arith PeanoNat NArith Lia.
Import ListNotations.
Local Open Scope string_scope.
Local Open Scope bool_scope.
Local Open Scope list_scope.

(** ** Column types *)

(** [uuid] values are opaque; only equality is used on them. *)
Definition uuid := nat.

(** [timestamptz] values and ISO date strings: instants of one clock. *)
Definition timestamptz := nat.

(** The enumeration [user_role]. *)
Inductive user_role : Set := user | org_admin | manager | super_admin.

Definition user_role_eqb (a b : user_role) : bool :=
  match a, b with
  | user, user | org_admin, org_admin
  | manager, manager | super_admin, super_admin => true
  | _, _ => false
  end.

(** SQL [a = b] on a nullable column, read as a condition: a comparison
    with NULL is not true. *)
Definition sql_eq (a b : option uuid) : bool :=
  match a, b with
  | Some x, Some y => Nat.eqb x y
  | _, _ => false
  end.

(** [COALESCE(x, d)], and JavaScript [x || d] on a value that is either
    absent or truthy. *)
Definition coalesce {A : Type} (x : option A) (d : A) : A :=
  match x with
  | Some a => a
  | None => d
  end.

(** [!!x] on a value that is a timestamp or absent; also
    [x IS NOT NULL]. *)
Definition is_not_null {A : Type} (x : option A) : bool :=
  match x with
  | Some _ => true
  | None => false
  end.

(** The literal that the trigger, the [DO] block and the facade all
    compare with. *)
Definition SUPER_ADMIN_EMAIL : string := "superadmin@workflowgene.cloud".

(** ** Rows *)

(** A row of [auth.users], as far as the code reads it: [NEW] in the
    trigger, [user] / [authData.user] in the facade.  The two metadata
    fields are [raw_user_meta_data->>'first_name'] and [->>'last_name']. *)
Module users.

Record row : Set := mk {
  id : uuid;
  email : string;
  email_confirmed_at : option timestamptz;
  meta_first_name : option string;
  meta_last_name : option string
}.

End users.

(** A row of [profiles]: the columns that the migration and the facade
    name. *)
Record Profile : Set := mkProfile {
  id : uuid;
  email : string;
  first_name : string;
  last_name : string;
  role : user_role;
  organization_id : option uuid;
  email_verified : bool;
  is_active : bool;
  last_login : option timestamptz;
  created_at : timestamptz;
  updated_at : timestamptz
}.

(** A column list with values: the [SET] list of an [UPDATE], the column
    and [VALUES] lists of an [INSERT], the object handed to [.insert],
    [.upsert] and [.update].  [None] is a column that is not named (a
    JavaScript property that is absent or [undefined], which the JSON body
    drops); on the nullable columns [Some None] is an explicit NULL. *)
Record Columns : Set := mkColumns {
  c_id : option uuid;
  c_email : option string;
  c_first_name : option string;
  c_last_name : option string;
  c_role : option user_role;
  c_organization_id : option (option uuid);
  c_email_verified : option bool;
  c_is_active : option bool;
  c_last_login : option (option timestamptz);
  c_created_at : option timestamptz;
  c_updated_at : option timestamptz
}.

Definition no_columns : Columns :=
  mkColumns None None None None None None None None None None None.

(** [SET cols] applied to a row: named columns take the new value, the
    others keep theirs. *)
Definition assign (cols : Columns) (r : Profile) : Profile :=
  {| id := coalesce (c_id cols) (id r);
     email := coalesce (c_email cols) (email r);
     first_name := coalesce (c_first_name cols) (first_name r);
     last_name := coalesce (c_last_name cols) (last_name r);
     role := coalesce (c_role cols) (role r);
     organization_id := coalesce (c_organization_id cols) (organization_id r);
     email_verified := coalesce (c_email_verified cols) (email_verified r);
     is_active := coalesce (c_is_active cols) (is_active r);
     last_login := coalesce (c_last_login cols) (last_login r);
     created_at := coalesce (c_created_at cols) (created_at r);
     updated_at := coalesce (c_updated_at cols) (updated_at r) |}.

(** ** The table and its statements *)

Definition table := list Profile.

Definition has_id (i : uuid) (r : Profile) : bool := Nat.eqb (id r) i.

Definition has_email (e : string) (r : Profile) : bool := String.eqb (email r) e.

(** [SELECT ... WHERE id = i], first match. *)
Definition find_id (i : uuid) (T : table) : option Profile :=
  find (has_id i) T.

(** Number of rows whose [id] is [i]. *)
Definition count_id (i : uuid) (T : table) : nat :=
  length (filter (has_id i) T).

(** The primary key on [id] ([ON CONFLICT (id)] needs it): no two rows
    share an [id]. *)
Definition pk_unique (T : table) : Prop := NoDup (map id T).

(** [UPDATE profiles SET ... WHERE w]. *)
Definition update_where (w : Profile -> bool) (set : Profile -> Profile)
    (T : table) : table :=
  map (fun r => if w r then set r else r) T.

(** [INSERT ... VALUES new ON CONFLICT (id) DO UPDATE SET ...]: the row
    that holds the same [id] is updated in place, and nothing is added;
    without such a row [new] is added. *)
Definition insert_on_conflict_id (new : Profile) (set : Profile -> Profile)
    (T : table) : table :=
  if existsb (has_id (id new)) T
  then update_where (has_id (id new)) set T
  else T ++ [new].

(** * The migration *)

(** ** Commands and callers *)

Inductive command : Set := SELECT | INSERT | UPDATE | DELETE.

Definition command_eqb (a b : command) : bool :=
  match a, b with
  | SELECT, SELECT | INSERT, INSERT | UPDATE, UPDATE | DELETE, DELETE => true
  | _, _ => false
  end.

(** The database roles that requests run as. *)
Inductive pg_role : Set := role_anon | role_authenticated | role_service_role.

Definition pg_role_eqb (a b : pg_role) : bool :=
  match a, b with
  | role_anon, role_anon | role_authenticated, role_authenticated
  | role_service_role, role_service_role => true
  | _, _ => false
  end.

(** Who sends a request: no session, the session of a Principal, or the
    backend credential. *)
Inductive caller : Set :=
| anon
| authenticated (uid : uuid)
| service_role.

Definition pg_role_of (c : caller) : pg_role :=
  match c with
  | anon => role_anon
  | authenticated _ => role_authenticated
  | service_role => role_service_role
  end.

(** [auth.uid()]. *)
Definition auth_uid (c : caller) : option uuid :=
  match c with
  | authenticated uid => Some uid
  | _ => None
  end.
(** ** Answers of the store *)

(** An error as the client library reports it: the two members that the
    facade reads.  For an error of the store [code] is its SQLSTATE.
    Either may be missing on an [Error] or an [AuthError] of
    JavaScript. *)
Record js_error : Set := mkError {
  code : option string;
  message : option string
}.

(** The object [{ data, error }] that the calls of the client library
    resolve to: [error] is set, or [data] is what was asked for. *)
Inductive response (A : Type) : Type :=
| Data (d : A)
| Err (error : js_error).
Arguments Data {A} d.
Arguments Err {A} error.

(** A name between double quotes, as the store writes it in a message. *)
Definition quoted (name : string) : string :=
  String "034"%char (String.append name (String "034"%char EmptyString)).

(** The error of the rewriter for a policy that reads its own table. *)
Definition infinite_recursion : js_error :=
  {| code := Some "42P17"%string;
     message :=
       Some (String.append
               "infinite recursion detected in policy for relation "
               (quoted "profiles")) |}.

(** The error for a row that the policies do not let a command write. *)
Definition insufficient_privilege : js_error :=
  {| code := Some "42501"%string;
     message :=
       Some (String.append
               "new row violates row-level security policy for table "
               (quoted "profiles")) |}.

Definition unique_violation : js_error :=
  {| code := Some "23505"%string;
     message :=
       Some "duplicate key value violates unique constraint"%string |}.

(** ** Row-level security on [profiles] *)

(** A [USING] or [WITH CHECK] expression of the migration, about a row of
    a table with rows [R]. *)
Inductive expression (R : Type) : Type :=
| sql_true
    (* true *)
| uid_is (column : R -> uuid)
    (* auth.uid() = column *)
| exists_own_profile (cond : Profile -> R -> bool).
    (* EXISTS (SELECT 1 FROM profiles p
               WHERE p.id = auth.uid() AND cond) *)
Arguments sql_true {R}.
Arguments uid_is {R} column.
Arguments exists_own_profile {R} cond.

(** Whether an expression holds a subquery.  Those of the migration all
    select from [profiles]. *)
Definition has_subquery {R : Type} (e : expression R) : bool :=
  match e with
  | exists_own_profile _ => true
  | _ => false
  end.

(** A [CREATE POLICY] statement.  [for_command = None] is [FOR ALL]. *)
Record Policy : Type := mkPolicy {
  policy_name : string;
  for_command : option command;
  to_role : pg_role;
  USING : expression Profile;
  WITH_CHECK : option (expression Profile)
}.

Definition profiles_select_own : Policy :=
  {| policy_name := "profiles_select_own";
     for_command := Some SELECT;
     to_role := role_authenticated;
     USING := uid_is id;
     WITH_CHECK := None |}.

Definition profiles_update_own : Policy :=
  {| policy_name := "profiles_update_own";
     for_command := Some UPDATE;
     to_role := role_authenticated;
     USING := uid_is id;
     WITH_CHECK := None |}.

Definition profiles_service_role_all : Policy :=
  {| policy_name := "profiles_service_role_all";
     for_command := None;
     to_role := role_service_role;
     USING := sql_true;
     WITH_CHECK := Some sql_true |}.

Definition profiles_super_admin_select_all : Policy :=
  {| policy_name := "profiles_super_admin_select_all";
     for_command := Some SELECT;
     to_role := role_authenticated;
     USING :=
       exists_own_profile (fun p _ => user_role_eqb (role p) super_admin);
     WITH_CHECK := None |}.

Definition profiles_super_admin_update_all : Policy :=
  {| policy_name := "profiles_super_admin_update_all";
     for_command := Some UPDATE;
     to_role := role_authenticated;
     USING :=
       exists_own_profile (fun p _ => user_role_eqb (role p) super_admin);
     WITH_CHECK := None |}.

Definition profiles_org_admin_select_org : Policy :=
  {| policy_name := "profiles_org_admin_select_org";
     for_command := Some SELECT;
     to_role := role_authenticated;
     USING :=
       exists_own_profile
         (fun p r => (user_role_eqb (role p) org_admin
                      || user_role_eqb (role p) manager)
                     && sql_eq (organization_id p) (organization_id r));
     WITH_CHECK := None |}.

(** The policies on [profiles] once the migration has run: it drops the
    earlier ones by name and creates these six. *)
Definition policies : list Policy :=
  [ profiles_select_own;
    profiles_update_own;
    profiles_service_role_all;
    profiles_super_admin_select_all;
    profiles_super_admin_update_all;
    profiles_org_admin_select_org ].

(** A policy applies to a command of a caller when it is [FOR] that
    command (or [FOR ALL]) and [TO] the caller's role. *)
Definition applies (pol : Policy) (cmd : command) (c : caller) : bool :=
  match for_command pol with
  | None => true
  | Some k => command_eqb k cmd
  end && pg_role_eqb (to_role pol) (pg_role_of c).

Definition policies_for (cmd : command) (c : caller) : list Policy :=
  filter (fun pol => applies pol cmd c) policies.

Definition policy_has_subquery (pol : Policy) : bool :=
  has_subquery (USING pol)
  || match WITH_CHECK pol with
     | Some e => has_subquery e
     | None => false
     end.

(** What the rewriter finds in a subquery on [profiles] that stands in a
    policy: the [SELECT] policies of the caller are added to it, and when
    one of them holds a subquery of its own, which again selects from
    [profiles], the rewriter meets [profiles] while it is expanding the
    policies of [profiles] and gives up. *)
Definition subquery_recurs (c : caller) : bool :=
  existsb policy_has_subquery (policies_for SELECT c).

(** The rewriter, for a statement on [profiles] to which the policies of
    the commands [cmds] are added.  It runs before any row is read, so
    that its error does not depend on the table. *)
Definition expand_policies (cmds : list command) (c : caller)
    : option js_error :=
  if existsb (fun cmd => existsb policy_has_subquery (policies_for cmd c))
             cmds
     && subquery_recurs c
  then Some infinite_recursion
  else None.

(** An expression about the row [r]; [seen] are the rows of [profiles]
    that its subquery sees. *)
Definition holds {R : Type} (c : caller) (seen : list Profile)
    (e : expression R) (r : R) : bool :=
  match e with
  | sql_true => true
  | uid_is column => sql_eq (auth_uid c) (Some (column r))
  | exists_own_profile cond =>
      existsb (fun p => sql_eq (Some (id p)) (auth_uid c) && cond p r) seen
  end.

(** The rows that a subquery of a policy sees: those that a [SELECT]
    policy of the caller accepts.  Where the rewriter has let the
    statement pass, these policies hold no subquery. *)
Definition seen_by_subquery (c : caller) (T : table) : list Profile :=
  filter (fun p =>
            existsb (fun pol => holds c [] (USING pol) p)
                    (policies_for SELECT c))
         T.

(** Permissive policies are combined with OR; a row that no applicable
    policy accepts is refused.  [permits] is asked about existing rows,
    once the rewriter has let the statement pass. *)
Definition permits (cmd : command) (c : caller) (T : table) (r : Profile)
    : bool :=
  existsb (fun pol => holds c (seen_by_subquery c T) (USING pol) r)
          (policies_for cmd c).

(** [accepts] is asked about the rows that a command writes.  A policy
    that is created with [USING] only has its [USING] expression as its
    check as well. *)
Definition accepts (cmd : command) (c : caller) (T : table) (r : Profile)
    : bool :=
  existsb
    (fun pol =>
       holds c (seen_by_subquery c T)
             (coalesce (WITH_CHECK pol) (USING pol)) r)
    (policies_for cmd c).

(** What the policies of one command say about an existing row: the error
    of the rewriter, or whether the row passes. *)
Definition using_ok (cmd : command) (c : caller) (T : table) (r : Profile)
    : response bool :=
  match expand_policies [cmd] c with
  | Some e => Err e
  | None => Data (permits cmd c T r)
  end.

(** The same about a row that the command writes. *)
Definition check_ok (cmd : command) (c : caller) (T : table) (r : Profile)
    : response bool :=
  match expand_policies [cmd] c with
  | Some e => Err e
  | None => Data (accepts cmd c T r)
  end.

(** Only equality of messages is used. *)
Definition sqlerrm := string.

(** The result of a PL/pgSQL block: it completes, or an exception leaves
    it. *)
Inductive plpgsql (A : Type) : Type :=
| Done (a : A)
| Raised (e : sqlerrm).
Arguments Done {A} a.
Arguments Raised {A} e.

Section Migration.

(** The column DEFAULTs of [profiles].  The statement that creates the
    table is not in this migration; an [INSERT] takes from here the
    columns it does not name. *)
Variable defaults : Profile.

(** [INSERT INTO profiles (cols) VALUES (...)]: the row that is added. *)
Definition inserted (cols : Columns) : Profile := assign cols defaults.

(** ** [handle_new_user] *)

(** The [VALUES] list of the trigger's [INSERT]. *)
Definition handle_new_user_values (now : timestamptz) (NEW : users.row)
    (user_role : user_role) (org_id : option uuid) : Columns :=
  {| c_id := Some (users.id NEW);
     c_email := Some (users.email NEW);
     c_role := Some user_role;
     c_organization_id := Some org_id;
     c_email_verified :=
       Some (coalesce (Some (is_not_null (users.email_confirmed_at NEW)))
                      false);
     c_first_name := Some (coalesce (users.meta_first_name NEW) EmptyString);
     c_last_name := Some (coalesce (users.meta_last_name NEW) EmptyString);
     c_created_at := Some now;
     c_updated_at := Some now;
     c_is_active := None;
     c_last_login := None |}.

(** The [DO UPDATE SET] list of the trigger's [INSERT]. *)
Definition handle_new_user_conflict (now : timestamptz) (NEW : users.row)
    : Columns :=
  {| c_id := None;
     c_email := Some (users.email NEW);
     c_email_verified :=
       Some (coalesce (Some (is_not_null (users.email_confirmed_at NEW)))
                      false);
     c_updated_at := Some now;
     c_first_name := None;
     c_last_name := None;
     c_role := None;
     c_organization_id := None;
     c_is_active := None;
     c_last_login := None;
     c_created_at := None |}.

(** The statement between [BEGIN] and [RETURN NEW].  [raised] is an error
    that the store raises while it runs the [INSERT] (a constraint of the
    table other than its primary key, for instance); a statement that
    raises changes nothing. *)
Definition handle_new_user_body (raised : option sqlerrm)
    (now : timestamptz) (NEW : users.row)
    (user_role : user_role) (org_id : option uuid) (T : table)
    : plpgsql table :=
  match raised with
  | Some e => Raised e
  | None =>
      Done (insert_on_conflict_id
              (inserted (handle_new_user_values now NEW user_role org_id))
              (assign (handle_new_user_conflict now NEW))
              T)
  end.

(** The trigger function.  It is [SECURITY DEFINER]: its statement is
    not filtered by the policies.  The result is the row it returns to the
    insertion into [auth.users] and the table it leaves. *)
Definition handle_new_user (raised : option sqlerrm) (now : timestamptz)
    (NEW : users.row) (T : table) : plpgsql (users.row * table) :=
  (* DECLARE *)
  let user_role := user in
  let org_id : option uuid := None in
  (* Determine role based on email *)
  let '(user_role, org_id) :=
    if String.eqb (users.email NEW) SUPER_ADMIN_EMAIL
    then (super_admin, None)
    else (user, org_id) in
  match handle_new_user_body raised now NEW user_role org_id T with
  | Done T' => Done (NEW, T')
  | Raised _ =>
      (* EXCEPTION WHEN OTHERS: RAISE WARNING ...; RETURN NEW *)
      Done (NEW, T)
  end.

(** The table that [handle_new_user] leaves. *)
Definition after_handle_new_user (raised : option sqlerrm)
    (now : timestamptz) (NEW : users.row) (T : table) : table :=
  match handle_new_user raised now NEW T with
  | Done (_, T') => T'
  | Raised _ => T
  end.

(** ** The super-admin [DO] block *)

(** The [SELECT] list of the block's [INSERT ... SELECT ... FROM auth.users]. *)
Definition bootstrap_values (now : timestamptz) (u : users.row) : Columns :=
  {| c_id := Some (users.id u);
     c_email := Some (users.email u);
     c_first_name := Some "Super"%string;
     c_last_name := Some "Admin"%string;
     c_role := Some super_admin;
     c_organization_id := Some None;
     c_email_verified := Some true;
     c_is_active := Some true;
     c_created_at := Some now;
     c_updated_at := Some now;
     c_last_login := None |}.

(** Its [ON CONFLICT (id) DO UPDATE SET] list. *)
Definition bootstrap_conflict (now : timestamptz) : Columns :=
  {| c_role := Some super_admin;
     c_organization_id := Some None;
     c_email_verified := Some true;
     c_first_name := Some "Super"%string;
     c_last_name := Some "Admin"%string;
     c_updated_at := Some now;
     c_id := None;
     c_email := None;
     c_is_active := None;
     c_last_login := None;
     c_created_at := None |}.

(** The [SET] list of the [UPDATE] in its [ELSE] branch. *)
Definition bootstrap_update (now : timestamptz) : Columns :=
  {| c_role := Some super_admin;
     c_organization_id := Some None;
     c_email_verified := Some true;
     c_first_name := Some "Super"%string;
     c_last_name := Some "Admin"%string;
     c_is_active := Some true;
     c_updated_at := Some now;
     c_id := None;
     c_email := None;
     c_last_login := None;
     c_created_at := None |}.

(** The [DO $$ ... $$] block.  [auth_users] is [auth.users], whose rows
    have distinct ids; the rows that the [SELECT] yields are inserted one
    after the other. *)
Definition super_admin_block (now : timestamptz)
    (auth_users : list users.row) (T : table) : table :=
  if negb (existsb (has_email SUPER_ADMIN_EMAIL) T)
  then
    fold_left
      (fun acc u =>
         insert_on_conflict_id (inserted (bootstrap_values now u))
                               (assign (bootstrap_conflict now)) acc)
      (filter (fun u => String.eqb (users.email u) SUPER_ADMIN_EMAIL)
              auth_users)
      T
  else
    update_where (has_email SUPER_ADMIN_EMAIL)
                 (assign (bootstrap_update now)) T.

End Migration.

(** ** [get_user_profile] *)

(** A row of [organizations], as far as the function reads it. *)
Module organizations.

Record row : Set := mk {
  id : uuid;
  name : string
}.

End organizations.

(** The [RETURNS TABLE] row of [get_user_profile]. *)
Module user_profile.

Record row : Set := mk {
  id : uuid;
  email : string;
  first_name : string;
  last_name : string;
  role : user_role;
  organization_id : option uuid;
  email_verified : bool;
  is_active : bool;
  organization_name : option string
}.

End user_profile.

(** [profiles p LEFT JOIN organizations o ON p.organization_id = o.id],
    for one row [p]: [p] with each organization that matches, or [p]
    with nulls when none does. *)
Definition left_join_organizations (orgs : list organizations.row)
    (p : Profile) : list (Profile * option organizations.row) :=
  match filter (fun o => sql_eq (organization_id p)
                                (Some (organizations.id o))) orgs with
  | [] => [(p, None)]
  | matching => map (fun o => (p, Some o)) matching
  end.

(** The function.  It is [SECURITY DEFINER]: the policies do not filter
    its query.  A null [user_id] compares with no [id]. *)
Definition get_user_profile (orgs : list organizations.row) (T : table)
    (user_id : option uuid) : list user_profile.row :=
  map (fun po : Profile * option organizations.row =>
         let (p, o) := po in
         {| user_profile.id := id p;
            user_profile.email := email p;
            user_profile.first_name := first_name p;
            user_profile.last_name := last_name p;
            user_profile.role := role p;
            user_profile.organization_id := organization_id p;
            user_profile.email_verified := email_verified p;
            user_profile.is_active := is_active p;
            user_profile.organization_name :=
              option_map organizations.name o |})
      (filter (fun po : Profile * option organizations.row =>
                 sql_eq (Some (id (fst po))) user_id)
              (flat_map (left_join_organizations orgs) T)).

(** ** Row-level security on [analytics] *)

(** A [numeric] value: [unscaled] divided by ten to the [scale]. *)
Record numeric : Set := mkNumeric {
  unscaled : N;
  scale : nat
}.

(** A row of [analytics], without the two columns that take their
    defaults ([id], [recorded_at]).  [metadata] is a JSON object whose
    values are strings. *)
Module analytics.

Record row : Set := mk {
  organization_id : option uuid;
  metric_type : string;
  metric_value : option numeric;
  metadata : list (string * string)
}.

End analytics.

(** The policy [analytics_org_access]: [FOR ALL TO authenticated], with
    [USING] only, which is the check of the written rows too. *)
Definition analytics_org_access_using : expression analytics.row :=
  exists_own_profile
    (fun p a => user_role_eqb (role p) super_admin
                || sql_eq (organization_id p) (analytics.organization_id a)).

(** What the policy says about a row of [analytics], for any command.  Its
    subquery selects from [profiles], under the [SELECT] policies of
    [profiles]. *)
Definition analytics_org_access (c : caller) (T : table) (a : analytics.row)
    : response bool :=
  if pg_role_eqb role_authenticated (pg_role_of c)
  then
    if has_subquery analytics_org_access_using && subquery_recurs c
    then Err infinite_recursion
    else Data (holds c (seen_by_subquery c T) analytics_org_access_using a)
  else Data false.

(** The rows that the migration inserts into [analytics]. *)
Definition sample_analytics : list analytics.row :=
  [ analytics.mk None "system_metric" (Some (mkNumeric 999%N 1))
      [("type", "uptime"); ("service", "api")];
    analytics.mk None "system_metric" (Some (mkNumeric 120%N 0))
      [("type", "response_time"); ("service", "api")];
    analytics.mk None "system_metric" (Some (mkNumeric 50000%N 0))
      [("type", "active_users")] ].

(** * The facade *)

(** ** Values of the JavaScript side *)

(** [new Error(msg)]. *)
Definition new_Error (msg : string) : js_error :=
  {| code := None; message := Some msg |}.

(** How an awaited call ends: with a value, or with a rejection that
    [await] throws. *)
Inductive completion (A : Type) : Type :=
| Normal (a : A)
| Throw (e : js_error).
Arguments Normal {A} a.
Arguments Throw {A} e.

(** The object [{ success, data, error }] that the facade returns. *)
Record result (D : Type) : Type := mkResult {
  success : bool;
  data : option D;
  error : option string
}.
Arguments mkResult {D} success data error.
Arguments success {D} r.
Arguments data {D} r.
Arguments error {D} r.

(** [data] of [supabase.auth.signUp] and [signInWithPassword]: the user,
    and whether a session came with it. *)
Record AuthData : Set := mkAuthData {
  data_user : option users.row;
  data_session : bool
}.

(** *** Strings *)

(** White space and line terminators of ECMAScript among the code units
    below 256; strings here are sequences of such code units. *)
Definition is_white_space (a : ascii) : bool :=
  let n := nat_of_ascii a in
  (Nat.leb 9 n && Nat.leb n 13) || Nat.eqb n 32 || Nat.eqb n 160.

Fixpoint trim_start (l : list ascii) : list ascii :=
  match l with
  | a :: rest => if is_white_space a then trim_start rest else l
  | [] => []
  end.

(** [String.prototype.trim]. *)
Definition trim (s : string) : string :=
  string_of_list_ascii
    (rev (trim_start (rev (trim_start (list_ascii_of_string s))))).

(** [String.prototype.includes]. *)
Fixpoint includes (hay needle : string) : bool :=
  prefix needle hay
  || match hay with
     | String _ rest => includes rest needle
     | EmptyString => false
     end.

(** Truthiness of a string that may be [undefined]. *)
Definition truthy (s : option string) : bool :=
  match s with
  | Some (String _ _) => true
  | _ => false
  end.

(** [isSupabaseConfigured()] of [src/lib/supabase.js], as a function of
    the two environment values that it reads.  The facade below takes its
    result as [configured]. *)
Definition isSupabaseConfigured (supabaseUrl supabaseAnonKey : option string)
    : bool :=
  truthy supabaseUrl && truthy supabaseAnonKey
  && negb (String.eqb (coalesce supabaseUrl EmptyString)
                      "https://placeholder.supabase.co")
  && negb (String.eqb (coalesce supabaseAnonKey EmptyString)
                      "placeholder-key").

(** [error.message?.includes(needle)] as a condition. *)
Definition message_includes (e : js_error) (needle : string) : bool :=
  match message e with
  | Some m => includes m needle
  | None => false
  end.

(** [error.message || fallback]. *)
Definition message_or (e : js_error) (fallback : string) : string :=
  if truthy (message e) then coalesce (message e) fallback else fallback.

(** ** Requests to [profiles] through the client library *)

(** The answer of the REST layer to a fetch of one row that finds none,
    or several. *)
Definition PGRST116 : js_error :=
  {| code := Some "PGRST116"%string;
     message :=
       Some "JSON object requested, multiple (or no) rows returned"%string |}.
(** What can go wrong with one request for a reason that the source does
    not fix (the network, a constraint of the table that this migration
    does not show): nothing, an [error] in the answer, or a rejected
    promise.  A request that fails so changes nothing.  With [no_fault]
    the answer is that of the store under the policies. *)
Inductive fault : Set :=
| no_fault
| refused (e : js_error)
| thrown (e : js_error).

(** Computations of the facade: they read and write the table, and end
    with a value or with an exception. *)
Definition js (A : Type) : Type := table -> completion A * table.

Definition ret {A : Type} (a : A) : js A := fun T => (Normal a, T).

Definition throw {A : Type} (e : js_error) : js A := fun T => (Throw e, T).

Definition bind {A B : Type} (m : js A) (k : A -> js B) : js B :=
  fun T =>
    match m T with
    | (Normal a, T') => k a T'
    | (Throw e, T') => (Throw e, T')
    end.

(** [try { body } catch (e) { handler }]: what [body] wrote before it
    threw stays written. *)
Definition try_catch {A : Type} (body : js A) (handler : js_error -> js A)
    : js A :=
  fun T =>
    match body T with
    | (Normal a, T') => (Normal a, T')
    | (Throw e, T') => handler e T'
    end.

(** [await] of a call whose answer is given. *)
Definition await {A : Type} (c : completion A) : js A := fun T => (c, T).

Notation "x <- m ;; k" := (bind m (fun x => k))
  (at level 61, m at next level, right associativity).

(** One request: [run] is the statement that the store executes when
    nothing else goes wrong. *)
Definition send {A : Type} (f : fault) (run : table -> response A * table)
    : js (response A) :=
  fun T =>
    match f with
    | no_fault => let (r, T') := run T in (Normal r, T')
    | refused e => (Normal (Err e), T)
    | thrown e => (Throw e, T)
    end.

(** The rows that a [SELECT] of [c] sees, or the error of the rewriter. *)
Definition visible (c : caller) (T : table) : response (list Profile) :=
  match expand_policies [SELECT] c with
  | Some e => Err e
  | None => Data (filter (permits SELECT c T) T)
  end.

(** An answer handed on: an error stays an error. *)
Definition and_then {A B : Type} (r : response A) (k : A -> response B)
    : response B :=
  match r with
  | Data a => k a
  | Err e => Err e
  end.

(** [.select(...).eq(...)]. *)
Definition select_where (c : caller) (w : Profile -> bool) (T : table)
    : response (list Profile) :=
  and_then (visible c T) (fun rows => Data (filter w rows)).

(** [.single()]: one row, or the error [PGRST116]. *)
Definition single (rows : list Profile) : response Profile :=
  match rows with
  | [r] => Data r
  | _ => Err PGRST116
  end.

(** [.maybeSingle()]: no row is [null], one row is that row. *)
Definition maybeSingle (rows : list Profile) : response (option Profile) :=
  match rows with
  | [] => Data None
  | [r] => Data (Some r)
  | _ => Err PGRST116
  end.

Fixpoint distinct (l : list uuid) : bool :=
  match l with
  | [] => true
  | x :: rest => negb (existsb (Nat.eqb x) rest) && distinct rest
  end.

(** [.update(cols).eq(...)].  The statement reads the table for its
    condition, so the rewriter adds the [SELECT] policies to those of
    [UPDATE].  The rows it writes are those that match, that the caller
    may see and may update.  A written row that fails the check, or that
    takes the [id] of another row, fails the whole statement.  The answer
    carries the rows written. *)
Definition rls_update (c : caller) (w : Profile -> bool) (cols : Columns)
    (T : table) : response (list Profile) * table :=
  match expand_policies [UPDATE; SELECT] c with
  | Some e => (Err e, T)
  | None =>
      let target r := w r && permits SELECT c T r && permits UPDATE c T r in
      let T' := update_where target (assign cols) T in
      if forallb (fun r => accepts UPDATE c T (assign cols r))
                 (filter target T)
      then
        if distinct (map id T')
        then (Data (map (assign cols) (filter target T)), T')
        else (Err unique_violation, T)
      else (Err insufficient_privilege, T)
  end.

(** ** [src/lib/supabase.js] *)

(** The two arguments of [createClient]: the environment values, or the
    placeholders. *)
Definition client_url (supabaseUrl : option string) : string :=
  if truthy supabaseUrl then coalesce supabaseUrl EmptyString
  else "https://placeholder.supabase.co".

Definition client_key (supabaseAnonKey : option string) : string :=
  if truthy supabaseAnonKey then coalesce supabaseAnonKey EmptyString
  else "placeholder-key".

(** [localStorage] and [sessionStorage]: keys with their values. *)
Definition Storage := list (string * string).

(** [storage.removeItem(key)]. *)
Definition removeItem (key : string) (st : Storage) : Storage :=
  filter (fun kv => negb (String.eqb (fst kv) key)) st.

(** [Object.keys(storage)]. *)
Definition keys (st : Storage) : list string := map fst st.

(** [clearInvalidSession].  [signOut] is how [supabase.auth.signOut()]
    ends; the two storages are taken as that call leaves them.  The
    result is [localStorage] and [sessionStorage] afterwards. *)
Definition clearInvalidSession (signOut : completion (response unit))
    (localStorage sessionStorage : Storage) : Storage * Storage :=
  match signOut with
  | Normal _ =>
      let localStorage := removeItem "supabase.auth.token" localStorage in
      let sessionStorage :=
        removeItem "supabase.auth.token" sessionStorage in
      (* Clear all auth-related localStorage items *)
      (fold_left
         (fun st key =>
            if prefix "sb-" key || includes key "supabase"
            then removeItem key st
            else st)
         (keys localStorage) localStorage,
       sessionStorage)
  | Throw _ =>
      (* console.warn *)
      (localStorage, sessionStorage)
  end.

(** ** The organization that [signUp] inserts *)

Definition between (lo hi n : nat) : bool := Nat.leb lo n && Nat.leb n hi.

(** [String.prototype.toLowerCase], one code unit below 256. *)
Definition toLowerCase_unit (a : ascii) : ascii :=
  let n := nat_of_ascii a in
  if between 65 90 n || (between 192 222 n && negb (Nat.eqb n 215))
  then ascii_of_nat (n + 32)
  else a.

Fixpoint map_units (f : ascii -> ascii) (s : string) : string :=
  match s with
  | EmptyString => EmptyString
  | String a rest => String (f a) (map_units f rest)
  end.

Definition toLowerCase (s : string) : string := map_units toLowerCase_unit s.

(** The class [[a-z0-9]]. *)
Definition is_slug_unit (a : ascii) : bool :=
  let n := nat_of_ascii a in between 97 122 n || between 48 57 n.

(** [.replace(/[^a-z0-9]/g, '-')]. *)
Definition replace_non_slug (s : string) : string :=
  map_units (fun a => if is_slug_unit a then a else "-"%char) s.

(** [organizationName.toLowerCase().replace(/[^a-z0-9]/g, '-')] *)
Definition slug (organizationName : string) : string :=
  replace_non_slug (toLowerCase organizationName).

Section Facade.

(** The column DEFAULTs of [profiles], as in the migration. *)
Variable defaults : Profile.

(** [.insert(cols)]: the [INSERT] policies check the row, then the
    primary key. *)
Definition rls_insert (c : caller) (cols : Columns) (T : table)
    : response unit * table :=
  match expand_policies [INSERT] c with
  | Some e => (Err e, T)
  | None =>
      if accepts INSERT c T (inserted defaults cols)
      then
        if existsb (has_id (id (inserted defaults cols))) T
        then (Err unique_violation, T)
        else (Data tt, T ++ [inserted defaults cols])
      else (Err insufficient_privilege, T)
  end.

(** [.upsert(cols, { onConflict: 'id' })]: an
    [INSERT ... ON CONFLICT (id) DO UPDATE] that sets every column of
    [cols].  The rewriter adds the policies of [INSERT], those of
    [UPDATE] for the conflict, and those of [SELECT] for the [id] that the
    conflict reads.  The [INSERT] policies check the row as proposed; when
    a row holds the [id], the [UPDATE] policies must allow that row and
    the row as written. *)
Definition rls_upsert (c : caller) (cols : Columns) (T : table)
    : response unit * table :=
  match expand_policies [INSERT; UPDATE; SELECT] c with
  | Some e => (Err e, T)
  | None =>
      if accepts INSERT c T (inserted defaults cols)
      then
        match find_id (id (inserted defaults cols)) T with
        | None => (Data tt, T ++ [inserted defaults cols])
        | Some old =>
            if permits UPDATE c T old && accepts UPDATE c T (assign cols old)
            then (Data tt,
                  insert_on_conflict_id (inserted defaults cols)
                                        (assign cols) T)
            else (Err insufficient_privilege, T)
        end
      else (Err insufficient_privilege, T)
  end.

(** ** [getCurrentUser] *)

(** [getSession] is the answer of [supabase.auth.getSession()]: its
    [data] is [session?.user].  [clearInvalidSession] catches what it
    throws and does not touch [profiles]. *)
Definition getCurrentUser (configured : bool)
    (getSession : completion (response (option users.row)))
    : option users.row :=
  if negb configured then None
  else
    match getSession with
    | Normal (Err _) => None
    | Normal (Data session_user) => session_user
    | Throw _ => None
    end.

(** ** [getCurrentProfile] *)

(** The object that [getCurrentProfile] inserts for a missing profile. *)
Definition missing_profile_values (now : timestamptz) (u : users.row)
    : Columns :=
  {| c_id := Some (users.id u);
     c_email := Some (users.email u);
     c_email_verified := Some (is_not_null (users.email_confirmed_at u));
     c_role :=
       Some (if String.eqb (users.email u) SUPER_ADMIN_EMAIL
             then super_admin else user);
     c_first_name := Some (coalesce (users.meta_first_name u) EmptyString);
     c_last_name := Some (coalesce (users.meta_last_name u) EmptyString);
     c_created_at := Some now;
     c_updated_at := Some now;
     c_organization_id := None;
     c_is_active := None;
     c_last_login := None |}.

(** [.from('profiles').select(...).eq('id', i).single()] *)
Definition select_profile (c : caller) (f : fault) (i : uuid)
    : js (response Profile) :=
  send f (fun T => (and_then (select_where c (has_id i) T) single, T)).

(** The requests are those of the session's user.  [f_select], [f_insert]
    and [f_again] belong to the three requests in the order of the code.
    The joined [organization] of the answer is left out. *)
Definition getCurrentProfile (configured : bool)
    (getSession : completion (response (option users.row)))
    (f_select f_insert f_again : fault) (now : timestamptz)
    : js (option Profile) :=
  if negb configured then ret None
  else
    try_catch
      (match getCurrentUser configured getSession with
       | None => ret None
       | Some u =>
           let c := authenticated (users.id u) in
           r <- select_profile c f_select (users.id u) ;;
           match r with
           | Err error =>
               match code error with
               | Some k =>
                   if String.eqb k "PGRST116"
                   then
                     (* Profile doesn't exist, create it *)
                     ri <- send f_insert
                             (rls_insert c (missing_profile_values now u)) ;;
                     match ri with
                     | Err _ => ret None
                     | Data _ =>
                         (* Retry fetching the profile *)
                         r2 <- select_profile c f_again (users.id u) ;;
                         match r2 with
                         | Err _ => ret None
                         | Data newProfile => ret (Some newProfile)
                         end
                     end
                   else ret None
               | None => ret None
               end
           | Data d => ret (Some d)
           end
       end)
      (fun _ => ret None).

(** ** [signIn] *)

Definition not_configured_message : string :=
  "Authentication service not configured. Please check your Supabase configuration.".

Definition database_issue_message : string :=
  "Database connection issue. Please try again later or contact support if the problem persists.".

Definition failure {D : Type} (msg : option string) : result D :=
  {| success := false; data := None; error := msg |}.

Definition succeeded {D : Type} (d : option D) : result D :=
  {| success := true; data := d; error := None |}.

(** The object of the [last_login] update. *)
Definition last_login_values (now : timestamptz) : Columns :=
  {| c_last_login := Some (Some now);
     c_updated_at := Some now;
     c_id := None; c_email := None; c_first_name := None;
     c_last_name := None; c_role := None; c_organization_id := None;
     c_email_verified := None; c_is_active := None; c_created_at := None |}.

(** [signIn({ email, password })].  [auth] is the answer of
    [signInWithPassword], which gets [email.trim()] and the password. *)
Definition signIn (configured : bool) (email : string)
    (auth : completion (response AuthData)) (f_update : fault)
    (now : timestamptz) : js (result AuthData) :=
  if negb configured then ret (failure (Some not_configured_message))
  else
    try_catch
      (r <- await auth ;;
       match r with
       | Err error =>
           if message_includes error "Database error granting user"
           then ret (failure (Some database_issue_message))
           else if message_includes error "Invalid login credentials"
           then ret (failure (Some
                  "Invalid email or password. Please check your credentials and try again."%string))
           else ret (failure (Some
                  (message_or error "Login failed. Please try again.")))
       | Data d =>
           (* Update last login timestamp *)
           _ <- match data_user d with
                | Some u =>
                    try_catch
                      (_ <- send f_update
                              (rls_update (authenticated (users.id u))
                                          (has_id (users.id u))
                                          (last_login_values now)) ;;
                       ret tt)
                      (fun _ => ret tt)
                | None => ret tt
                end ;;
           ret (succeeded (Some d))
       end)
      (fun error => ret (failure (message error))).

(** ** [signUp] *)

(** The organization of a sign-up: the [id] of the row that the
    insertion into [organizations] returns, when a name was given and the
    insertion is answered with the row. *)
Definition signUp_organization (organizationName : option string)
    (org : completion (response uuid)) : js (option uuid) :=
  let organizationId : option uuid := None in
  if truthy (option_map trim organizationName)
  then
    try_catch
      (ro <- await org ;;
       match ro with
       | Err _ => ret organizationId
       | Data orgData_id => ret (Some orgData_id)
       end)
      (fun _ => ret organizationId)
  else ret organizationId.

(** Determine role based on email and organization: [userRole] and
    [organizationId] as the upsert gets them. *)
Definition signUp_role (email : string) (organizationId : option uuid)
    : user_role * option uuid :=
  let userRole := user in
  if String.eqb (trim email) SUPER_ADMIN_EMAIL
  then (super_admin, None)
  else if is_not_null organizationId
  then (org_admin, organizationId)
  else (userRole, organizationId).

(** The object that [signUp] upserts. *)
Definition signUp_values (now : timestamptz) (u : users.row)
    (email : string) (firstName lastName : option string)
    (organizationId : option uuid) (userRole : user_role) : Columns :=
  {| c_id := Some (users.id u);
     c_email := Some (trim email);
     c_first_name := firstName;
     c_last_name := lastName;
     c_organization_id := Some organizationId;
     c_role := Some userRole;
     c_email_verified := Some (is_not_null (users.email_confirmed_at u));
     c_created_at := Some now;
     c_updated_at := Some now;
     c_is_active := None;
     c_last_login := None |}.

(** [signUp({ email, password, firstName, lastName, organizationName,
    industry, companySize })].  [auth] is the answer of
    [supabase.auth.signUp] for [email.trim()], the password and the two
    names; [org] is the answer of the insertion into [organizations],
    with the new row's [id] as its [data].  The requests that follow a
    sign-up are those of the new session when one came with the answer,
    and requests without a session otherwise.  The insertion into
    [auth.users] that the sign-up causes runs the trigger, which is
    [handle_new_user] above and no part of this function. *)
Definition signUp (configured : bool) (email : string)
    (firstName lastName organizationName : option string)
    (auth : completion (response AuthData))
    (org : completion (response uuid)) (f_upsert : fault)
    (now : timestamptz) : js (result AuthData) :=
  if negb configured then ret (failure (Some not_configured_message))
  else
    try_catch
      (r <- await auth ;;
       match r with
       | Err authError =>
           if message_includes authError "Database error"
           then ret (failure (Some database_issue_message))
           else ret (failure (Some
                  (message_or authError "Signup failed. Please try again.")))
       | Data authData =>
           _ <- match data_user authData with
                | Some u =>
                    let c := if data_session authData
                             then authenticated (users.id u) else anon in
                    (* Create organization if provided *)
                    organizationId <-
                      signUp_organization organizationName org ;;
                    (* Update or create profile with additional information *)
                    try_catch
                      (let '(userRole, organizationId) :=
                         signUp_role email organizationId in
                       _ <- send f_upsert
                              (rls_upsert c
                                 (signUp_values now u email firstName
                                    lastName organizationId userRole)) ;;
                       ret tt)
                      (fun _ => ret tt)
                | None => ret tt
                end ;;
           ret (succeeded (Some authData))
       end)
      (fun error => ret (failure (message error))).

(** ** [signOut], [resetPassword], [updatePassword] *)

(** [auth] is the answer of [supabase.auth.signOut()]. *)
Definition signOut (auth : completion (response unit)) : js (result unit) :=
  try_catch
    (r <- await auth ;;
     match r with
     | Err error => throw error
     | Data _ => ret (succeeded None)
     end)
    (fun error => ret (failure (message error))).

(** [auth] is the answer of [resetPasswordForEmail(email.trim(), ...)]. *)
Definition resetPassword (configured : bool) (email : string)
    (auth : completion (response unit)) : js (result unit) :=
  if negb configured
  then throw (new_Error "Authentication service not configured")
  else
    try_catch
      (r <- await auth ;;
       match r with
       | Err error => throw error
       | Data d => ret (succeeded (Some d))
       end)
      (fun error => ret (failure (message error))).

(** [auth] is the answer of [supabase.auth.updateUser]. *)
Definition updatePassword (newPassword : string)
    (auth : completion (response users.row)) : js (result users.row) :=
  try_catch
    (r <- await auth ;;
     match r with
     | Err error => throw error
     | Data d => ret (succeeded (Some d))
     end)
    (fun error => ret (failure (message error))).

(** ** [updateProfile] *)

(** [{ ...profileData, updated_at: new Date().toISOString() }] *)
Definition updateProfile_values (profileData : Columns) (now : timestamptz)
    : Columns :=
  {| c_id := c_id profileData;
     c_email := c_email profileData;
     c_first_name := c_first_name profileData;
     c_last_name := c_last_name profileData;
     c_role := c_role profileData;
     c_organization_id := c_organization_id profileData;
     c_email_verified := c_email_verified profileData;
     c_is_active := c_is_active profileData;
     c_last_login := c_last_login profileData;
     c_created_at := c_created_at profileData;
     c_updated_at := Some now |}.

Definition updateProfile (configured : bool)
    (getSession : completion (response (option users.row)))
    (profileData : Columns) (f_update : fault) (now : timestamptz)
    : js (result Profile) :=
  try_catch
    (match getCurrentUser configured getSession with
     | None => throw (new_Error "No authenticated user")
     | Some u =>
         r <- send f_update
                (fun T =>
                   let (written, T') :=
                     rls_update (authenticated (users.id u))
                                (has_id (users.id u))
                                (updateProfile_values profileData now) T in
                   (and_then written single, T')) ;;
         match r with
         | Err error => throw error
         | Data d => ret (succeeded (Some d))
         end
     end)
    (fun error => ret (failure (message error))).

(** ** [ensureSuperAdmin] *)

(** The object of its update. *)
Definition ensureSuperAdmin_values (now : timestamptz) : Columns :=
  {| c_role := Some super_admin;
     c_email_verified := Some true;
     c_first_name := Some "Super"%string;
     c_last_name := Some "Admin"%string;
     c_organization_id := Some None;
     c_is_active := Some true;
     c_updated_at := Some now;
     c_id := None; c_email := None; c_last_login := None;
     c_created_at := None |}.

(** [c] is the session in which the application runs it. *)
Definition ensureSuperAdmin (configured : bool) (c : caller)
    (f_select f_update : fault) (now : timestamptz) : js unit :=
  if negb configured then ret tt
  else
    try_catch
      ((* Check if super admin profile exists *)
       r <- send f_select
              (fun T =>
                 (and_then
                    (select_where c (has_email SUPER_ADMIN_EMAIL) T)
                    maybeSingle, T)) ;;
       match r with
       | Err _ => ret tt
       | Data existingProfile =>
           match existingProfile with
           | Some p =>
               (* If profile exists but role is wrong, update it *)
               if negb (user_role_eqb (role p) super_admin)
               then
                 _ <- send f_update
                        (rls_update c (has_email SUPER_ADMIN_EMAIL)
                                    (ensureSuperAdmin_values now)) ;;
                 ret tt
               else ret tt
           | None => ret tt
           end
       end)
      (fun _ => ret tt).

(** ** Runs of the bootstrap *)

(** The operations that create or repair profile rows: the trigger, the
    facade's [signUp], the block of the migration, [ensureSuperAdmin] and
    [getCurrentProfile]; each with what it receives. *)
Inductive op : Type :=
| run_handle_new_user (raised : option sqlerrm) (now : timestamptz)
    (NEW : users.row)
| run_signUp (configured : bool) (email : string)
    (firstName lastName organizationName : option string)
    (auth : completion (response AuthData))
    (org : completion (response uuid)) (f_upsert : fault)
    (now : timestamptz)
| run_super_admin_block (now : timestamptz) (auth_users : list users.row)
| run_ensureSuperAdmin (configured : bool) (c : caller)
    (f_select f_update : fault) (now : timestamptz)
| run_getCurrentProfile (configured : bool)
    (getSession : completion (response (option users.row)))
    (f_select f_insert f_again : fault) (now : timestamptz).

(** The table that an operation leaves. *)
Definition step (o : op) (T : table) : table :=
  match o with
  | run_handle_new_user raised now NEW =>
      after_handle_new_user defaults raised now NEW T
  | run_signUp configured email firstName lastName organizationName auth
               org f_upsert now =>
      snd (signUp configured email firstName lastName organizationName
                  auth org f_upsert now T)
  | run_super_admin_block now auth_users =>
      super_admin_block defaults now auth_users T
  | run_ensureSuperAdmin configured c f_select f_update now =>
      snd (ensureSuperAdmin configured c f_select f_update now T)
  | run_getCurrentProfile configured getSession f_select f_insert f_again
                          now =>
      snd (getCurrentProfile configured getSession f_select f_insert
                             f_again now T)
  end.

(** Operations one after the other. *)
Definition run (ops : list op) (T : table) : table :=
  fold_left (fun acc o => step o acc) ops T.

End Facade.

(** ** [testConnection] *)

(** [query] is the answer of the [select('count').limit(1)] on
    [profiles]. *)
Definition testConnection (configured : bool)
    (query : completion (response unit)) : js (result unit) :=
  if negb configured
  then ret (failure (Some "Supabase not configured"%string))
  else
    try_catch
      (r <- await query ;;
       match r with
       | Err error => throw error
       | Data _ => ret (succeeded None)
       end)
      (fun error => ret (failure (message error))).

(** * The login page *)

(** What [handleSubmit] of [Login] shows and does: the toast, and the
    path it navigates to, if any. *)
Inductive toast : Set :=
| toast_success (msg : string)
| toast_error (msg : string).

Record submitted : Set := mkSubmitted {
  shown : toast;
  navigated : option string
}.

(** [location.state?.from?.pathname || '/dashboard'] *)
Definition from_path (pathname : option string) : string :=
  if truthy pathname then coalesce pathname EmptyString else "/dashboard".

(** A value in a template literal. *)
Definition interpolate (x : option string) : string :=
  coalesce x "undefined".

(** [handleSubmit].  The two environment values are those that
    [isSupabaseConfigured] reads; [query] and [auth] are the answers
    that [testConnection] and [signIn] get. *)
Definition handleSubmit (VITE_SUPABASE_URL VITE_SUPABASE_ANON_KEY : option string)
    (formData_email : string) (pathname : option string)
    (query : completion (response unit))
    (auth : completion (response AuthData)) (f_update : fault)
    (now : timestamptz) : js submitted :=
  let configured :=
    isSupabaseConfigured VITE_SUPABASE_URL VITE_SUPABASE_ANON_KEY in
  try_catch
    (if negb (truthy VITE_SUPABASE_URL) || negb (truthy VITE_SUPABASE_ANON_KEY)
     then throw (new_Error
            "Supabase credentials not configured. Please check your .env file.")
     else
       (* Test database connection first *)
       connectionTest <- testConnection configured query ;;
       if negb (success connectionTest)
       then throw (new_Error
              ("Database connection failed: "
               ++ interpolate (error connectionTest)))
       else
         r <- signIn configured formData_email auth f_update now ;;
         if success r
         then ret {| shown := toast_success "Login successful!";
                     navigated :=
                       Some (if String.eqb formData_email SUPER_ADMIN_EMAIL
                             then "/dashboard"%string
                             else from_path pathname) |}
         else ret {| shown :=
                       toast_error
                         (if truthy (error r)
                          then coalesce (error r) EmptyString
                          else "Login failed. Please check your credentials.");
                     navigated := None |})
    (fun error =>
       ret {| shown :=
                toast_error
                  (message_or error
                     "Login failed. Please check your credentials.");
              navigated := None |}).

(** * Notions that the properties use *)

(** The profile row of the reserved identity as it should be; [now] is
    the time of the statement that writes it. *)
Definition canonical (now : timestamptz) (r : Profile) : Profile :=
  {| id := id r;
     email := email r;
     first_name := "Super";
     last_name := "Admin";
     role := super_admin;
     organization_id := None;
     email_verified := true;
     is_active := true;
     last_login := last_login r;
     created_at := created_at r;
     updated_at := now |}.

(** A row is in the correct state for the reserved identity. *)
Definition is_canonical (r : Profile) : Prop :=
  role r = super_admin /\ organization_id r = None
  /\ email_verified r = true /\ is_active r = true
  /\ first_name r = "Super"%string /\ last_name r = "Admin"%string.

(** What [updateProfile] writes into a row: the columns that its caller
    gives, and the current time as [updated_at]. *)
Definition forwarded (profileData : Columns) (now : timestamptz)
    (r : Profile) : Profile :=
  {| id := coalesce (c_id profileData) (id r);
     email := coalesce (c_email profileData) (email r);
     first_name := coalesce (c_first_name profileData) (first_name r);
     last_name := coalesce (c_last_name profileData) (last_name r);
     role := coalesce (c_role profileData) (role r);
     organization_id :=
       coalesce (c_organization_id profileData) (organization_id r);
     email_verified :=
       coalesce (c_email_verified profileData) (email_verified r);
     is_active := coalesce (c_is_active profileData) (is_active r);
     last_login := coalesce (c_last_login profileData) (last_login r);
     created_at := coalesce (c_created_at profileData) (created_at r);
     updated_at := now |}.

(** What every operation keeps: the primary key, and the ids that have a
    row. *)
Definition keeps (T T' : table) : Prop :=
  (pk_unique T -> pk_unique T')
  /\ (forall i, In i (map id T) -> In i (map id T')).

(** ** Rows and Principals of the examples *)

Definition sample_defaults : Profile :=
  {| id := 0; email := EmptyString; first_name := EmptyString;
     last_name := EmptyString; role := user; organization_id := None;
     email_verified := false; is_active := true; last_login := None;
     created_at := 0; updated_at := 0 |}.

Definition alice_user : users.row :=
  users.mk 1 "alice@co.com" (Some 3) (Some "Alice"%string)
           (Some "Ames"%string).

Definition bob_user : users.row := users.mk 2 "bob@co.com" None None None.

Definition root_user : users.row :=
  users.mk 5 SUPER_ADMIN_EMAIL (Some 1) None None.

(** The admin of organization 10. *)
Definition alice : Profile :=
  {| id := 1; email := "alice@co.com"; first_name := "Alice";
     last_name := "Ames"; role := org_admin; organization_id := Some 10;
     email_verified := true; is_active := true; last_login := None;
     created_at := 3; updated_at := 3 |}.

(** A user without organization, as the trigger creates it. *)
Definition bob : Profile :=
  {| id := 2; email := "bob@co.com"; first_name := EmptyString;
     last_name := EmptyString; role := user; organization_id := None;
     email_verified := false; is_active := true; last_login := None;
     created_at := 4; updated_at := 4 |}.

(** A member of organization 10. *)
Definition carol : Profile :=
  {| id := 3; email := "carol@co.com"; first_name := "Carol";
     last_name := "Cole"; role := user; organization_id := Some 10;
     email_verified := true; is_active := true; last_login := None;
     created_at := 5; updated_at := 5 |}.

(** A manager of organization 20. *)
Definition dave : Profile :=
  {| id := 4; email := "dave@org.io"; first_name := "Dave";
     last_name := "Dunn"; role := manager; organization_id := Some 20;
     email_verified := true; is_active := true; last_login := None;
     created_at := 6; updated_at := 6 |}.

(** The reserved identity, in its correct state. *)
Definition root : Profile :=
  {| id := 5; email := SUPER_ADMIN_EMAIL; first_name := "Super";
     last_name := "Admin"; role := super_admin; organization_id := None;
     email_verified := true; is_active := true; last_login := None;
     created_at := 1; updated_at := 1 |}.

(** The reserved identity with the right role and drifted flags. *)
Definition drifted_root : Profile :=
  {| id := 5; email := SUPER_ADMIN_EMAIL; first_name := "Eve";
     last_name := "Else"; role := super_admin; organization_id := Some 10;
     email_verified := false; is_active := false; last_login := None;
     created_at := 1; updated_at := 1 |}.

(** The reserved identity with a wrong role and drifted flags. *)
Definition demoted_root : Profile :=
  {| id := 5; email := SUPER_ADMIN_EMAIL; first_name := "Eve";
     last_name := "Else"; role := user; organization_id := Some 10;
     email_verified := false; is_active := false; last_login := None;
     created_at := 1; updated_at := 1 |}.

Definition sample_table : table := [alice; bob; carol; dave; root].

(** ** Notions of the further properties *)

(** The organization of a profile, if it has one and the row exists. *)
Definition organization_of (orgs : list organizations.row) (p : Profile)
    : option organizations.row :=
  match organization_id p with
  | Some oid => find (fun o => Nat.eqb oid (organizations.id o)) orgs
  | None => None
  end.

(** [SET updated_at = now] alone. *)
Definition touch (now : timestamptz) (r : Profile) : Profile :=
  {| id := id r; email := email r; first_name := first_name r;
     last_name := last_name r; role := role r;
     organization_id := organization_id r;
     email_verified := email_verified r; is_active := is_active r;
     last_login := last_login r; created_at := created_at r;
     updated_at := now |}.

(** One row of the block's [INSERT ... SELECT]. *)
Definition bootstrap_upsert (defaults : Profile) (now : timestamptz)
    (T : table) (u : users.row) : table :=
  insert_on_conflict_id (inserted defaults (bootstrap_values now u))
                        (assign (bootstrap_conflict now)) T.

(** What the block establishes for a row. *)
Definition elevated (r : Profile) : Prop :=
  role r = super_admin /\ organization_id r = None
  /\ email_verified r = true
  /\ first_name r = "Super"%string /\ last_name r = "Admin"%string.

(** The keys that [clearInvalidSession] looks for in [localStorage]. *)
Definition auth_key (key : string) : bool :=
  prefix "sb-" key || includes key "supabase".

(** One code unit of the slug. *)
Definition slug_unit (a : ascii) : ascii :=
  if is_slug_unit (toLowerCase_unit a) then toLowerCase_unit a else "-"%char.

Ltac settle :=
  simpl; repeat split; intros;
  try match goal with
      | H : ?x <> ?x |- _ => exfalso; now apply H
      end;
  repeat match goal with
         | H : _ /\ _ |- _ => destruct H
         | H : exists _, _ |- _ => destruct H
         end;
  try discriminate; try congruence; eauto;
  try (eexists; split; [reflexivity|]);
  try (unfold message_or;
       match goal with
       | |- context [message ?e] => destruct (message e) as [[|? ?]|]
       end; simpl);
  try discriminate.

(** Organizations for the examples. *)
Definition sample_organizations : list organizations.row :=
  [organizations.mk 10 "Acme"; organizations.mk 20 "Globex"].


(** The monad of the facade, unfolded. *)
Ltac run_facade :=
  unfold try_catch, bind, await, send, ret, throw; simpl.

(** * Properties *)

Lemma user_role_eqb_eq a b : user_role_eqb a b = true <-> a = b.
Proof. destruct a, b; simpl; split; congruence. Qed.

(** ** Tables and their primary key *)

Lemma has_id_true i r : has_id i r = true <-> id r = i.
Proof. unfold has_id. apply Nat.eqb_eq. Qed.

Lemma has_id_false i r : has_id i r = false <-> id r <> i.
Proof. unfold has_id. apply Nat.eqb_neq. Qed.

Lemma has_id_refl r : has_id (id r) r = true.
Proof. now apply has_id_true. Qed.

Lemma assign_id_kept cols r : c_id cols = None -> id (assign cols r) = id r.
Proof. intros H. unfold assign. simpl. now rewrite H. Qed.

Lemma pk_unique_inj (T : table) (a b : Profile) :
  pk_unique T -> In a T -> In b T -> id a = id b -> a = b.
Proof.
  unfold pk_unique. induction T as [|r T IH]; simpl; intros ND Ha Hb E.
  - contradiction.
  - inversion ND as [|? ? Hnotin ND']; subst.
    destruct Ha as [<-|Ha], Hb as [<-|Hb]; auto.
    + exfalso. apply Hnotin. rewrite E. now apply in_map.
    + exfalso. apply Hnotin. rewrite <- E. now apply in_map.
Qed.

Lemma filter_has_id_absent i (T : table) :
  ~ In i (map id T) -> filter (has_id i) T = [].
Proof.
  induction T as [|r T IH]; simpl; intros H; auto.
  destruct (has_id i r) eqn:E.
  - apply has_id_true in E. exfalso. apply H. now left.
  - apply IH. intros H'. apply H. now right.
Qed.

Lemma filter_has_id_unique (T : table) (a : Profile) :
  pk_unique T -> In a T -> filter (has_id (id a)) T = [a].
Proof.
  unfold pk_unique. induction T as [|r T IH]; simpl; intros ND Ha.
  - contradiction.
  - inversion ND as [|? ? Hnotin ND']; subst.
    destruct Ha as [->|Ha].
    + rewrite has_id_refl. f_equal. now apply filter_has_id_absent.
    + destruct (has_id (id a) r) eqn:E.
      * apply has_id_true in E. exfalso. apply Hnotin. rewrite E.
        now apply in_map.
      * now apply IH.
Qed.

Lemma find_id_none_iff i (T : table) :
  find_id i T = None <-> ~ In i (map id T).
Proof.
  unfold find_id. induction T as [|r T IH]; simpl.
  - tauto.
  - destruct (has_id i r) eqn:E.
    + apply has_id_true in E. split; [discriminate | intros H; exfalso; auto].
    + apply has_id_false in E. rewrite IH. tauto.
Qed.

Lemma find_id_some i (T : table) r :
  find_id i T = Some r -> In r T /\ id r = i.
Proof.
  unfold find_id. intros H. apply find_some in H.
  destruct H as [H1 H2]. now apply has_id_true in H2.
Qed.

Lemma existsb_has_id i (T : table) :
  existsb (has_id i) T = true <-> In i (map id T).
Proof.
  rewrite existsb_exists, in_map_iff. split.
  - intros [r [H1 H2]]. exists r. split; auto. now apply has_id_true.
  - intros [r [H1 H2]]. exists r. split; auto. now apply has_id_true.
Qed.

Lemma existsb_has_id_find i (T : table) :
  existsb (has_id i) T = is_not_null (find_id i T).
Proof.
  unfold find_id. induction T as [|r T IH]; simpl; auto.
  destruct (has_id i r); simpl; auto.
Qed.

Lemma count_id_le_1 i (T : table) : pk_unique T -> count_id i T <= 1.
Proof.
  unfold pk_unique, count_id. induction T as [|r T IH]; simpl; intros ND.
  - lia.
  - inversion ND as [|? ? Hnotin ND']; subst.
    destruct (has_id i r) eqn:E; simpl.
    + apply has_id_true in E. subst i.
      rewrite filter_has_id_absent; auto.
    + auto.
Qed.

Lemma count_id_in i (T : table) :
  pk_unique T -> In i (map id T) -> count_id i T = 1.
Proof.
  intros ND H. apply in_map_iff in H. destruct H as [r [E Hr]]. subst i.
  unfold count_id. now rewrite filter_has_id_unique.
Qed.

Lemma count_id_absent i (T : table) :
  ~ In i (map id T) -> count_id i T = 0.
Proof. intros H. unfold count_id. now rewrite filter_has_id_absent. Qed.

(** An [UPDATE] whose [SET] list does not name [id] keeps every [id]. *)
Lemma update_where_ids_on w set (T : table) :
  (forall r, w r = true -> id (set r) = id r) ->
  map id (update_where w set T) = map id T.
Proof.
  intros H. unfold update_where. rewrite map_map. apply map_ext.
  intros r. destruct (w r) eqn:E; auto.
Qed.

Lemma update_where_ids w set (T : table) :
  (forall r, id (set r) = id r) ->
  map id (update_where w set T) = map id T.
Proof. intros H. apply update_where_ids_on. auto. Qed.

Lemma update_where_ext w w' set (T : table) :
  (forall r, w r = w' r) -> update_where w set T = update_where w' set T.
Proof.
  intros H. unfold update_where. apply map_ext. intros r. now rewrite H.
Qed.

Lemma insert_on_conflict_ids new set (T : table) :
  (forall r, id r = id new -> id (set r) = id r) ->
  map id (insert_on_conflict_id new set T)
  = if existsb (has_id (id new)) T then map id T else map id T ++ [id new].
Proof.
  intros H. unfold insert_on_conflict_id.
  destruct (existsb (has_id (id new)) T).
  - apply update_where_ids_on. intros r Hr. apply H. now apply has_id_true.
  - now rewrite map_app.
Qed.

Lemma insert_on_conflict_pk new set (T : table) :
  (forall r, id r = id new -> id (set r) = id r) ->
  pk_unique T -> pk_unique (insert_on_conflict_id new set T).
Proof.
  intros H ND. unfold pk_unique. rewrite insert_on_conflict_ids by auto.
  destruct (existsb (has_id (id new)) T) eqn:E; auto.
  apply NoDup_app; auto.
  - repeat constructor. simpl. tauto.
  - intros x Hx [<-|[]]. apply existsb_has_id in Hx. congruence.
Qed.

Lemma insert_on_conflict_has new set (T : table) :
  (forall r, id r = id new -> id (set r) = id r) ->
  In (id new) (map id (insert_on_conflict_id new set T)).
Proof.
  intros H. rewrite insert_on_conflict_ids by auto.
  destruct (existsb (has_id (id new)) T) eqn:E.
  - now apply existsb_has_id.
  - apply in_or_app. right. now left.
Qed.

Lemma insert_on_conflict_keeps new set (T : table) i :
  (forall r, id r = id new -> id (set r) = id r) ->
  In i (map id T) -> In i (map id (insert_on_conflict_id new set T)).
Proof.
  intros H Hi. rewrite insert_on_conflict_ids by auto.
  destruct (existsb (has_id (id new)) T); auto.
  apply in_or_app. now left.
Qed.

Lemma distinct_NoDup (l : list uuid) : distinct l = true <-> NoDup l.
Proof.
  induction l as [|x l IH]; simpl.
  - split; [constructor | reflexivity].
  - rewrite andb_true_iff, negb_true_iff, IH. split.
    + intros [H1 H2]. constructor; auto.
      intros Hin. assert (existsb (Nat.eqb x) l = true) as E.
      { apply existsb_exists. exists x. split; auto. apply Nat.eqb_refl. }
      congruence.
    + intros ND. inversion ND as [|? ? Hnotin ND']; subst. split; auto.
      destruct (existsb (Nat.eqb x) l) eqn:E; auto.
      apply existsb_exists in E. destruct E as [y [Hy E]].
      apply Nat.eqb_eq in E. subst y. contradiction.
Qed.

(** ** What the policies decide *)

Lemma sql_eq_some a b : sql_eq a (Some b) = true <-> a = Some b.
Proof.
  destruct a as [x|]; simpl; split; try congruence.
  - intros H. apply Nat.eqb_eq in H. now subst.
  - intros H. injection H as ->. apply Nat.eqb_refl.
Qed.

(** No policy is [TO anon]. *)
Lemma policies_for_anon cmd : policies_for cmd anon = [].
Proof. destruct cmd; reflexivity. Qed.

(** One policy is [TO service_role], and it is [FOR ALL]. *)
Lemma policies_for_service_role cmd :
  policies_for cmd service_role = [profiles_service_role_all].
Proof. destruct cmd; reflexivity. Qed.

(** The rewriter lets every statement without a session pass, and every
    statement of the backend credential. *)
Lemma expand_policies_anon cmds : expand_policies cmds anon = None.
Proof. unfold expand_policies. now rewrite andb_false_r. Qed.

Lemma expand_policies_service_role cmds :
  expand_policies cmds service_role = None.
Proof. unfold expand_policies. now rewrite andb_false_r. Qed.

(** In a session it refuses every statement to which the policies of
    [SELECT] or of [UPDATE] are added. *)
Lemma expand_policies_session cmds uid :
  existsb (fun cmd => command_eqb cmd SELECT || command_eqb cmd UPDATE) cmds
  = true ->
  expand_policies cmds (authenticated uid) = Some infinite_recursion.
Proof.
  intros H. unfold expand_policies.
  replace (subquery_recurs (authenticated uid)) with true by reflexivity.
  rewrite andb_true_r.
  replace (existsb _ cmds) with true; [reflexivity|].
  symmetry. apply existsb_exists. apply existsb_exists in H.
  destruct H as (cmd & I & H). exists cmd. split; [exact I|].
  destruct cmd; try discriminate; reflexivity.
Qed.

Lemma permits_anon cmd (T : table) r : permits cmd anon T r = false.
Proof. unfold permits. now rewrite policies_for_anon. Qed.

Lemma permits_service_role cmd (T : table) r :
  permits cmd service_role T r = true.
Proof. unfold permits. now rewrite policies_for_service_role. Qed.

Lemma accepts_service_role cmd (T : table) r :
  accepts cmd service_role T r = true.
Proof. unfold accepts. now rewrite policies_for_service_role. Qed.

Lemma filter_none {A : Type} (f : A -> bool) (l : list A) :
  (forall x, In x l -> f x = false) -> filter f l = [].
Proof.
  induction l as [|a l IH]; simpl; intros H; [reflexivity|].
  rewrite (H a (or_introl eq_refl)). apply IH. auto.
Qed.

Lemma filter_all {A : Type} (f : A -> bool) (l : list A) :
  (forall x, In x l -> f x = true) -> filter f l = l.
Proof.
  induction l as [|a l IH]; simpl; intros H; [reflexivity|].
  rewrite (H a (or_introl eq_refl)). f_equal. apply IH. auto.
Qed.

Lemma update_where_none w set (T : table) :
  (forall r, In r T -> w r = false) -> update_where w set T = T.
Proof.
  induction T as [|a T IH]; simpl; intros H; [reflexivity|].
  rewrite (H a (or_introl eq_refl)). f_equal. apply IH. auto.
Qed.

(** ** The statements of a session *)

Lemma select_where_session uid w (T : table) :
  select_where (authenticated uid) w T = Err infinite_recursion.
Proof. reflexivity. Qed.

(** ** The statements without a session *)

Lemma visible_anon (T : table) : visible anon T = Data [].
Proof.
  unfold visible. rewrite expand_policies_anon. f_equal.
  apply filter_none. intros. apply permits_anon.
Qed.

Lemma select_where_anon w (T : table) : select_where anon w T = Data [].
Proof. unfold select_where. now rewrite visible_anon. Qed.

Lemma rls_update_anon w cols (T : table) :
  pk_unique T -> rls_update anon w cols T = (Data [], T).
Proof.
  intros PK. unfold rls_update. rewrite expand_policies_anon.
  assert (F : filter (fun r => w r && permits SELECT anon T r
                               && permits UPDATE anon T r) T = []).
  { apply filter_none. intros. rewrite permits_anon.
    now rewrite andb_false_r. }
  rewrite F. simpl.
  rewrite update_where_none.
  - apply distinct_NoDup in PK. now rewrite PK.
  - intros. rewrite permits_anon. now rewrite andb_false_r.
Qed.

(** Whatever the table, an [UPDATE] without a session writes nothing. *)
Lemma rls_update_anon_table w cols (T : table) :
  snd (rls_update anon w cols T) = T.
Proof.
  unfold rls_update. rewrite expand_policies_anon.
  assert (F : filter (fun r => w r && permits SELECT anon T r
                               && permits UPDATE anon T r) T = []).
  { apply filter_none. intros. rewrite permits_anon.
    now rewrite andb_false_r. }
  rewrite F. simpl.
  rewrite update_where_none.
  - now destruct (distinct (map id T)).
  - intros. rewrite permits_anon. now rewrite andb_false_r.
Qed.

(** ** The statements of the backend credential *)

Lemma visible_service_role (T : table) : visible service_role T = Data T.
Proof.
  unfold visible. rewrite expand_policies_service_role. f_equal.
  apply filter_all. intros. apply permits_service_role.
Qed.

Lemma select_where_service_role w (T : table) :
  select_where service_role w T = Data (filter w T).
Proof. unfold select_where. now rewrite visible_service_role. Qed.

Lemma rls_update_service_role w cols (T : table) :
  rls_update service_role w cols T
  = if distinct (map id (update_where w (assign cols) T))
    then (Data (map (assign cols) (filter w T)),
          update_where w (assign cols) T)
    else (Err unique_violation, T).
Proof.
  unfold rls_update. rewrite expand_policies_service_role.
  assert (E : forall r, w r && permits SELECT service_role T r
                        && permits UPDATE service_role T r = w r).
  { intros. rewrite !permits_service_role. now rewrite !andb_true_r. }
  rewrite (filter_ext _ _ E).
  rewrite (update_where_ext _ _ _ _ E).
  replace (forallb _ (filter w T)) with true; [reflexivity|].
  symmetry. apply forallb_forall. intros. apply accepts_service_role.
Qed.

(** An [UPDATE] changes neither the number of the rows nor, when it does
    not name [id], an [id]. *)
Lemma rls_update_table c w cols (T : table) :
  snd (rls_update c w cols T) = T
  \/ exists w', snd (rls_update c w cols T) = update_where w' (assign cols) T
                /\ forall r, w' r = true -> w r = true.
Proof.
  unfold rls_update. destruct (expand_policies _ c); [now left|].
  destruct (forallb _ _); [|now left].
  destruct (distinct _); [|now left].
  right. eexists. split; [reflexivity|].
  intros r H. simpl in H.
  apply andb_true_iff in H. destruct H as [H _].
  apply andb_true_iff in H. now destruct H.
Qed.

(** ** The facade on the store *)

(** A fetch of one row in a session. *)
Lemma select_profile_session uid i (T : table) :
  select_profile (authenticated uid) no_fault i T
  = (Normal (Err infinite_recursion), T).
Proof. reflexivity. Qed.

(** A fetch of one row without a session. *)
Lemma select_profile_anon i (T : table) :
  select_profile anon no_fault i T = (Normal (Err PGRST116), T).
Proof.
  unfold select_profile, send. now rewrite select_where_anon.
Qed.

(** A fetch of one row with the backend credential. *)
Lemma select_profile_service_role (T : table) (r : Profile) :
  pk_unique T -> In r T ->
  select_profile service_role no_fault (id r) T = (Normal (Data r), T).
Proof.
  intros PK I. unfold select_profile, send.
  rewrite select_where_service_role. simpl.
  now rewrite filter_has_id_unique.
Qed.

(** [getCurrentProfile] gets no profile from a session: the fetch is
    answered with an error, and so is the insertion. *)
Lemma getCurrentProfile_null defaults configured getSession f_select
    f_insert f_again now (T : table) :
  getCurrentProfile defaults configured getSession f_select f_insert
                    f_again now T = (Normal None, T).
Proof.
  unfold getCurrentProfile. destruct configured; simpl; [|reflexivity].
  unfold try_catch, bind, select_profile, send, ret.
  destruct (getCurrentUser true getSession) as [u|]; [|reflexivity].
  destruct f_select as [|e|e]; simpl; try reflexivity.
  destruct (code e) as [k|]; [|reflexivity].
  destruct (String.eqb k "PGRST116"); [|reflexivity].
  destruct f_insert as [|e1|e1]; simpl; try reflexivity.
Qed.

Lemma signIn_table configured address auth f_update now (T : table) :
  snd (signIn configured address auth f_update now T) = T.
Proof.
  unfold signIn. destruct configured; simpl; [|reflexivity].
  unfold try_catch, bind, await, send, ret.
  destruct auth as [[d|e]|e]; simpl; try reflexivity.
  - destruct (data_user d) as [u|]; simpl; [|reflexivity].
    destruct f_update; reflexivity.
  - destruct (message_includes e "Database error granting user");
      [reflexivity|].
    destruct (message_includes e "Invalid login credentials"); reflexivity.
Qed.

Lemma signUp_organization_table organizationName org (T : table) :
  exists oid, signUp_organization organizationName org T = (Normal oid, T).
Proof.
  unfold signUp_organization, try_catch, bind, await, ret.
  destruct (truthy (option_map trim organizationName)); [|eauto].
  destruct org as [[o|e]|e]; simpl; eauto.
Qed.

Lemma signUp_table defaults configured address firstName lastName
    organizationName auth org f_upsert now (T : table) :
  snd (signUp defaults configured address firstName lastName
              organizationName auth org f_upsert now T) = T.
Proof.
  unfold signUp. destruct configured; simpl; [|reflexivity].
  unfold try_catch, bind, await, ret.
  destruct auth as [[d|e]|e]; simpl; try reflexivity.
  - destruct (data_user d) as [u|]; simpl; [|reflexivity].
    destruct (signUp_organization_table organizationName org T) as [oid E].
    rewrite E. destruct (signUp_role address oid) as [userRole oid'].
    unfold send.
    destruct f_upsert; destruct (data_session d); reflexivity.
  - destruct (message_includes e "Database error"); reflexivity.
Qed.

Lemma updateProfile_table configured getSession profileData f_update now
    (T : table) :
  snd (updateProfile configured getSession profileData f_update now T) = T.
Proof.
  unfold updateProfile, try_catch, bind, send, ret, throw.
  destruct (getCurrentUser configured getSession) as [u|]; [|reflexivity].
  destruct f_update; reflexivity.
Qed.

(** [ensureSuperAdmin] in a browser, with or without a session. *)
Lemma ensureSuperAdmin_table configured c f_select f_update now (T : table) :
  c <> service_role ->
  snd (ensureSuperAdmin configured c f_select f_update now T) = T.
Proof.
  intros Hc. unfold ensureSuperAdmin.
  destruct configured; simpl; [|reflexivity].
  unfold try_catch, bind, send, ret.
  destruct c as [|uid|]; [| |contradiction].
  - destruct f_select; try reflexivity.
    rewrite select_where_anon. reflexivity.
  - destruct f_select; reflexivity.
Qed.

(** ** The policies as they are written and as the store runs them *)

(** The subquery of a policy, on the rows of the table: it finds the
    caller's row, and only that. *)
Lemma holds_exists_own_profile {R : Type} (T : table) (a : Profile)
    (cond : Profile -> R -> bool) (r : R) :
  pk_unique T -> In a T ->
  holds (authenticated (id a)) T (exists_own_profile cond) r = cond a r.
Proof.
  intros ND Ha. simpl.
  destruct (cond a r) eqn:Ec.
  - apply existsb_exists. exists a. split; auto.
    now rewrite Nat.eqb_refl.
  - destruct (existsb _ T) eqn:E; auto.
    apply existsb_exists in E. destruct E as [p [Hp E]].
    apply andb_true_iff in E. destruct E as [E1 E2].
    apply Nat.eqb_eq in E1.
    assert (p = a) by now apply (pk_unique_inj T). subst p. congruence.
Qed.

(** C5.  In the session of an actor, of the role [user] or of any other,
    the policies of [SELECT] and of [UPDATE] on [profiles] do not let the
    actor reach the actor's own row: the rewriter refuses every such
    statement with the error 42P17, because two of the [SELECT] policies
    and one of the [UPDATE] policies select from [profiles] themselves.
    The fetch of the own row is answered with that error, an update of
    the own row is answered with it and writes nothing, and
    [getCurrentProfile] returns null.  The fetch of another row is
    answered with the same error, which is not the error of a refusal,
    42501. *)
Theorem own_row_is_out_of_reach (T : table) (actor : Profile) :
  using_ok SELECT (authenticated (id actor)) T actor = Err infinite_recursion
  /\ using_ok UPDATE (authenticated (id actor)) T actor
     = Err infinite_recursion
  /\ select_profile (authenticated (id actor)) no_fault (id actor) T
     = (Normal (Err infinite_recursion), T)
  /\ (forall cols,
        rls_update (authenticated (id actor)) (has_id (id actor)) cols T
        = (Err infinite_recursion, T))
  /\ (forall defaults (u : users.row) f_insert f_again now,
        users.id u = id actor ->
        getCurrentProfile defaults true (Normal (Data (Some u))) no_fault
                          f_insert f_again now T
        = (Normal None, T))
  /\ (forall target,
        select_profile (authenticated (id actor)) no_fault (id target) T
        = (Normal (Err infinite_recursion), T))
  /\ code infinite_recursion <> code insufficient_privilege.
Proof.
  split; [reflexivity|]. split; [reflexivity|]. split; [reflexivity|].
  split; [reflexivity|]. split; [|split; [reflexivity|discriminate]].
  intros. apply getCurrentProfile_null.
Qed.

(** C6.  The expression of [profiles_org_admin_select_org], asked about a
    row with the rows of the table before it, holds exactly for the rows
    of the organization of an [org_admin] or [manager], and that of
    [profiles_super_admin_select_all] holds for every row when the actor
    is a [super_admin].  The store does not get as far: both expressions
    select from [profiles] inside a policy on [profiles], so the rewriter
    refuses every [SELECT] of a session, and the actor sees no row of any
    organization. *)
Theorem org_scoped_select_is_refused (T : table) (actor target : Profile) :
  visible (authenticated (id actor)) T = Err infinite_recursion
  /\ (forall w,
        select_where (authenticated (id actor)) w T = Err infinite_recursion)
  /\ using_ok SELECT (authenticated (id actor)) T target
     = Err infinite_recursion
  /\ (pk_unique T -> In actor T ->
      (role actor = org_admin \/ role actor = manager ->
       forall A, organization_id actor = Some A ->
         (holds (authenticated (id actor)) T
                (USING profiles_org_admin_select_org) target = true
          <-> organization_id target = Some A))
      /\ (role actor = super_admin ->
          holds (authenticated (id actor)) T
                (USING profiles_super_admin_select_all) target = true)).
Proof.
  split; [reflexivity|]. split; [reflexivity|]. split; [reflexivity|].
  intros ND Ha. split.
  - intros Hrole A HA.
    unfold profiles_org_admin_select_org, USING.
    rewrite holds_exists_own_profile by auto.
    assert (user_role_eqb (role actor) org_admin
            || user_role_eqb (role actor) manager = true) as ->
        by (destruct Hrole as [-> | ->]; reflexivity).
    rewrite HA. simpl.
    destruct (organization_id target) as [b|]; simpl.
    + rewrite Nat.eqb_eq. split; congruence.
    + split; discriminate.
  - intros Hrole.
    unfold profiles_super_admin_select_all, USING.
    rewrite holds_exists_own_profile by auto.
    now rewrite Hrole.
Qed.

(** C8 (amended).  A read that the policies refuse is not told apart
    from a read of a row that is not there: whoever the caller, when the
    fetch of an existing row is not answered with that row, it has the
    answer of the fetch of an [id] without row, and that answer is not
    the error of a refusal, 42501. *)
Theorem denied_read_is_answered_as_a_missing_row
    (c : caller) (T : table) (r : Profile) (missing : uuid) :
  pk_unique T -> In r T -> ~ In missing (map id T) ->
  select_profile c no_fault (id r) T <> (Normal (Data r), T) ->
  select_profile c no_fault missing T = select_profile c no_fault (id r) T
  /\ forall e,
       select_profile c no_fault (id r) T = (Normal (Err e), T) ->
       code e <> code insufficient_privilege.
Proof.
  intros ND Hr Hm Hden. destruct c as [|uid|].
  - rewrite !select_profile_anon. split; [reflexivity|].
    intros e E. injection E as <-. discriminate.
  - rewrite !select_profile_session. split; [reflexivity|].
    intros e E. injection E as <-. discriminate.
  - exfalso. apply Hden. now apply select_profile_service_role.
Qed.

(** C10 (amended).  The expression of [profiles_update_own] asks only
    that the row's [id] is the caller's; the policy has no check of its
    own, so that the same is asked of the row as it is written.  No other
    column enters: a row that keeps its [id] passes whatever is written
    to [role], [organization_id] or any other column, and a row that is
    given another [id] does not.  [updateProfile] sends the columns that
    its caller gives, with [updated_at] set to the current time, as an
    update of the row whose [id] is the session's. *)
Theorem own_update_policy_asks_for_the_id_only :
  (forall c seen r,
      holds c seen (USING profiles_update_own) r = true
      <-> auth_uid c = Some (id r))
  /\ (forall c seen r cols,
         holds c seen
               (coalesce (WITH_CHECK profiles_update_own)
                         (USING profiles_update_own))
               (assign cols r) = true
         <-> auth_uid c = Some (coalesce (c_id cols) (id r)))
  /\ (forall profileData now r,
         assign (updateProfile_values profileData now) r
         = forwarded profileData now r)
  /\ (forall configured getSession profileData now (T : table) u,
         getCurrentUser configured getSession = Some u ->
         updateProfile configured getSession profileData no_fault now T
         = (Normal
              (match
                  and_then
                    (fst (rls_update (authenticated (users.id u))
                            (has_id (users.id u))
                            (updateProfile_values profileData now) T))
                    single
                with
                | Data d => succeeded (Some d)
                | Err e => failure (message e)
                end),
            snd (rls_update (authenticated (users.id u))
                   (has_id (users.id u))
                   (updateProfile_values profileData now) T))).
Proof.
  split; [|split; [|split]].
  - intros c seen r. simpl. apply sql_eq_some.
  - intros c seen r cols. simpl. apply sql_eq_some.
  - reflexivity.
  - intros configured getSession profileData now T u E.
    unfold updateProfile. rewrite E. reflexivity.
Qed.

(** ** The trigger and the facade, statement by statement *)

Lemma find_id_app_fresh i (T : table) new :
  find_id i T = None -> id new = i -> find_id i (T ++ [new]) = Some new.
Proof.
  unfold find_id. intros Hn Hi. induction T as [|r T IH]; simpl in *.
  - subst i. now rewrite has_id_refl.
  - destruct (has_id i r); [discriminate | auto].
Qed.

Lemma find_id_update_where i set (T : table) :
  (forall r, id r = i -> id (set r) = i) ->
  find_id i (update_where (has_id i) set T) = option_map set (find_id i T).
Proof.
  unfold find_id, update_where. intros H.
  induction T as [|r T IH]; simpl; auto.
  destruct (has_id i r) eqn:E.
  - apply has_id_true in E.
    assert (has_id i (set r) = true) as -> by (apply has_id_true; auto).
    reflexivity.
  - rewrite E. apply IH.
Qed.

Section Bootstrap.

Variable defaults : Profile.

(** The trigger on a Principal that has no profile row yet. *)
Lemma handle_new_user_insert now NEW (T : table) :
  find_id (users.id NEW) T = None ->
  handle_new_user defaults None now NEW T
  = Done (NEW,
          T ++ [inserted defaults
                  (handle_new_user_values now NEW
                     (if String.eqb (users.email NEW) SUPER_ADMIN_EMAIL
                      then super_admin else user) None)]).
Proof.
  intros H. unfold handle_new_user, handle_new_user_body,
    insert_on_conflict_id.
  destruct (String.eqb (users.email NEW) SUPER_ADMIN_EMAIL); simpl;
    rewrite existsb_has_id_find, H; reflexivity.
Qed.

(** The trigger on a Principal whose profile row exists. *)
Lemma handle_new_user_update now NEW (T : table) old :
  find_id (users.id NEW) T = Some old ->
  handle_new_user defaults None now NEW T
  = Done (NEW,
          update_where (has_id (users.id NEW))
                       (assign (handle_new_user_conflict now NEW)) T).
Proof.
  intros H. unfold handle_new_user, handle_new_user_body,
    insert_on_conflict_id.
  destruct (String.eqb (users.email NEW) SUPER_ADMIN_EMAIL); simpl;
    rewrite existsb_has_id_find, H; reflexivity.
Qed.

(** The organization that a sign-up ends with. *)
Lemma signUp_organization_cases organizationName org (T : table) :
  exists oid,
    signUp_organization organizationName org T = (Normal oid, T)
    /\ forall o,
         oid = Some o
         <-> truthy (option_map trim organizationName) = true
             /\ org = Normal (Data o).
Proof.
  unfold signUp_organization, try_catch, bind, await, ret.
  destruct (truthy (option_map trim organizationName)).
  - destruct org as [[o|e]|e]; simpl; eexists; (split; [reflexivity|]);
      intros o'; split; try discriminate.
    + intros E. injection E as ->. auto.
    + intros [_ E]. injection E as ->. reflexivity.
    + intros [_ E]. discriminate.
    + intros [_ E]. discriminate.
  - eexists. split; [reflexivity|]. intros o. split; [discriminate|].
    intros [E _]. discriminate.
Qed.

(** C1.  The trigger gives a new Principal the role [super_admin] and no
    organization when its email is the reserved address, and the role
    [user] otherwise.  [signUp] derives the role [super_admin] and no
    organization when the trimmed email is the reserved address, whatever
    organization name came with it; otherwise [org_admin] with the new
    organization when the organization row was created in the same call,
    and [user] with no organization when it was not.  What [signUp]
    derives does not reach the profile: the store refuses its upsert, with
    or without a session, so that the row that the trigger made for a
    Principal with another email keeps the role [user] and no
    organization, also when the organization row was created. *)
Theorem bootstrap_role_derivation :
  (forall now NEW (T : table),
      find_id (users.id NEW) T = None ->
      exists T' r,
        handle_new_user defaults None now NEW T = Done (NEW, T')
        /\ find_id (users.id NEW) T' = Some r
        /\ (users.email NEW = SUPER_ADMIN_EMAIL ->
            role r = super_admin /\ organization_id r = None)
        /\ (users.email NEW <> SUPER_ADMIN_EMAIL -> role r = user))
  /\ (forall email organizationName org (T : table),
         exists oid,
           signUp_organization organizationName org T = (Normal oid, T)
           /\ (forall o,
                 oid = Some o
                 <-> truthy (option_map trim organizationName) = true
                     /\ org = Normal (Data o))
           /\ (trim email = SUPER_ADMIN_EMAIL ->
               signUp_role email oid = (super_admin, None))
           /\ (trim email <> SUPER_ADMIN_EMAIL ->
               forall o, oid = Some o ->
                 signUp_role email oid = (org_admin, Some o))
           /\ (trim email <> SUPER_ADMIN_EMAIL ->
               oid = None -> signUp_role email oid = (user, None)))
  /\ (forall configured email firstName lastName organizationName auth org
             f_upsert now (T : table),
         snd (signUp defaults configured email firstName lastName
                     organizationName auth org f_upsert now T) = T)
  /\ (forall t NEW email firstName lastName organizationName session org
             f_upsert now (T : table),
         find_id (users.id NEW) T = None ->
         users.email NEW <> SUPER_ADMIN_EMAIL ->
         exists r,
           find_id (users.id NEW)
             (snd (signUp defaults true email firstName lastName
                     organizationName
                     (Normal (Data (mkAuthData (Some NEW) session)))
                     org f_upsert now
                     (after_handle_new_user defaults None t NEW T)))
           = Some r
           /\ role r = user /\ organization_id r = None).
Proof.
  split; [|split; [|split]].
  - intros now NEW T Hfresh. rewrite handle_new_user_insert by auto.
    eexists. eexists. split; [reflexivity|]. split.
    + apply find_id_app_fresh; auto.
    + unfold inserted, assign. simpl. split.
      * intros E. apply String.eqb_eq in E. rewrite E. auto.
      * intros E. apply String.eqb_neq in E. now rewrite E.
  - intros email organizationName org T.
    destruct (signUp_organization_cases organizationName org T)
      as (oid & E & H).
    exists oid. split; [exact E|]. split; [exact H|].
    unfold signUp_role. split; [|split].
    + intros Em. apply String.eqb_eq in Em. now rewrite Em.
    + intros Em o ->. apply String.eqb_neq in Em. now rewrite Em.
    + intros Em ->. apply String.eqb_neq in Em. now rewrite Em.
  - intros. apply signUp_table.
  - intros t NEW email firstName lastName organizationName session org
           f_upsert now T Hfresh Hem.
    rewrite signUp_table. unfold after_handle_new_user.
    rewrite handle_new_user_insert by auto.
    eexists. split; [apply find_id_app_fresh; auto|].
    apply String.eqb_neq in Hem. rewrite Hem. split; reflexivity.
Qed.

(** C7.  An error in the profile statement of the bootstrap does not
    fail the authentication that runs it.  The trigger returns [NEW]
    whatever its [INSERT] raises, and then leaves the table as it was.
    Once the sign-up at the authentication service has succeeded,
    [signUp] returns [success: true] with its data whatever becomes of the
    organization insertion and of the profile upsert.  A profile that is
    missing is not created by [getCurrentProfile]: in the session of its
    Principal the fetch is answered with the error 42P17, which is not
    the answer for no row, and the call returns null and sends no
    insertion; where the fetch is answered with [PGRST116], the
    insertion is refused with 42501, and the call returns null as
    well. *)
Theorem bootstrap_errors_do_not_abort :
  (forall raised now NEW (T : table),
      exists T',
        handle_new_user defaults raised now NEW T = Done (NEW, T')
        /\ (raised <> None -> T' = T))
  /\ (forall email firstName lastName organizationName authData org
             f_upsert now (T : table),
         fst (signUp defaults true email firstName lastName
                organizationName (Normal (Data authData)) org f_upsert
                now T)
         = Normal (succeeded (Some authData)))
  /\ (forall u f_insert f_again now (T : table),
         getCurrentProfile defaults true (Normal (Data (Some u)))
                           no_fault f_insert f_again now T
         = (Normal None, T))
  /\ (forall u e f_again now (T : table),
         code e = Some "PGRST116"%string ->
         getCurrentProfile defaults true (Normal (Data (Some u)))
                           (refused e) no_fault f_again now T
         = (Normal None, T)).
Proof.
  split; [|split; [|split]].
  - intros raised now NEW T. unfold handle_new_user, handle_new_user_body.
    destruct raised as [e|];
      destruct (String.eqb (users.email NEW) SUPER_ADMIN_EMAIL);
      eexists; (split; [reflexivity|]); intros H; congruence.
  - intros email firstName lastName organizationName authData org f_upsert
           now T.
    unfold signUp. simpl. unfold try_catch, bind, await, ret.
    destruct (data_user authData) as [u|]; simpl; auto.
    destruct (signUp_organization_table organizationName org T) as [oid E].
    rewrite E. destruct (signUp_role email oid) as [userRole oid'].
    unfold send.
    destruct f_upsert; destruct (data_session authData); reflexivity.
  - intros. apply getCurrentProfile_null.
  - intros. apply getCurrentProfile_null.
Qed.

(** C9.  [signUp], [signIn], [signOut], [updatePassword] and
    [updateProfile] return an object for every input and every answer of
    the services they call, and so does [resetPassword] when the store is
    configured.  When it is not, as when the two environment values are
    missing, [resetPassword] throws. *)
Theorem facade_results :
  (forall configured email firstName lastName organizationName auth org
          f_upsert now (T : table),
      exists r T',
        signUp defaults configured email firstName lastName
               organizationName auth org f_upsert now T = (Normal r, T'))
  /\ (forall configured email auth f_update now (T : table),
         exists r T',
           signIn configured email auth f_update now T = (Normal r, T'))
  /\ (forall auth (T : table), exists r, signOut auth T = (Normal r, T))
  /\ (forall newPassword auth (T : table),
         exists r, updatePassword newPassword auth T = (Normal r, T))
  /\ (forall configured getSession profileData f_update now (T : table),
         exists r T',
           updateProfile configured getSession profileData f_update now T
           = (Normal r, T'))
  /\ (forall email auth (T : table),
         exists r, resetPassword true email auth T = (Normal r, T))
  /\ (forall email auth (T : table),
         resetPassword false email auth T
         = (Throw (new_Error "Authentication service not configured"), T))
  /\ (forall email auth (T : table),
         resetPassword (isSupabaseConfigured None None) email auth T
         = (Throw (new_Error "Authentication service not configured"), T)).
Proof.
  split; [|split; [|split; [|split; [|split; [|split; [|split]]]]]].
  - intros configured email firstName lastName organizationName auth org
           f_upsert now T.
    unfold signUp. destruct configured; simpl; [|unfold ret; eauto].
    unfold try_catch, bind, await, ret.
    destruct auth as [[authData|e]|e]; simpl; eauto.
    + destruct (data_user authData) as [u|]; simpl; eauto.
      destruct (signUp_organization_table organizationName org T)
        as [oid E].
      rewrite E. destruct (signUp_role email oid) as [userRole oid'].
      unfold send.
      destruct f_upsert; destruct (data_session authData); simpl; eauto.
    + destruct (message_includes e "Database error"); eauto.
  - intros. unfold signIn. destruct configured; simpl; [|unfold ret; eauto].
    unfold try_catch, bind, await, send, ret.
    destruct auth as [[d|e]|e]; simpl; eauto.
    + destruct (data_user d) as [u|]; simpl; eauto.
      destruct f_update; simpl; eauto.
    + destruct (message_includes e "Database error granting user"); eauto.
      destruct (message_includes e "Invalid login credentials"); eauto.
  - intros. unfold signOut. run_facade.
    destruct auth as [[d|e]|e]; simpl; eauto.
  - intros. unfold updatePassword. run_facade.
    destruct auth as [[d|e]|e]; simpl; eauto.
  - intros. unfold updateProfile.
    unfold try_catch, bind, send, ret, throw.
    destruct (getCurrentUser configured getSession) as [u|]; simpl; eauto.
    destruct f_update; simpl; eauto.
  - intros. unfold resetPassword. run_facade.
    destruct auth as [[d|e]|e]; simpl; eauto.
  - intros. reflexivity.
  - intros. reflexivity.
Qed.

Lemma update_where_ext_in w w' set set' (T : table) :
  (forall r, In r T -> w r = w' r) ->
  (forall r, In r T -> w r = true -> set r = set' r) ->
  update_where w set T = update_where w' set' T.
Proof.
  intros Hw Hs. unfold update_where. apply map_ext_in. intros r Hr.
  rewrite <- Hw by auto. destruct (w r) eqn:E; auto.
Qed.

(** C3.  When the trigger's upsert meets a profile row with the
    Principal's [id], it writes [email], [email_verified] and
    [updated_at] of that row and nothing else: the stored role stays.
    The upsert of [signUp] writes nothing at all: whatever the sign-up
    and whatever the answers, every profile row is after it as it was
    before, so that a stored role is kept by a second sign-up of the same
    Principal as well. *)
Theorem upsert_on_existing_row :
  (forall now NEW (T : table) old,
      find_id (users.id NEW) T = Some old ->
      exists T',
        handle_new_user defaults None now NEW T = Done (NEW, T')
        /\ T' = update_where (has_id (users.id NEW))
                  (fun r =>
                     {| id := id r;
                        email := users.email NEW;
                        first_name := first_name r;
                        last_name := last_name r;
                        role := role r;
                        organization_id := organization_id r;
                        email_verified :=
                          is_not_null (users.email_confirmed_at NEW);
                        is_active := is_active r;
                        last_login := last_login r;
                        created_at := created_at r;
                        updated_at := now |}) T
        /\ exists new,
             find_id (users.id NEW) T' = Some new /\ role new = role old)
  /\ (forall configured email firstName lastName organizationName auth org
             f_upsert now (T : table),
         snd (signUp defaults configured email firstName lastName
                organizationName auth org f_upsert now T) = T)
  /\ (forall email firstName lastName organizationName u session org
             f_upsert now (T : table) old,
         find_id (users.id u) T = Some old ->
         find_id (users.id u)
           (snd (signUp defaults true email firstName lastName
                   organizationName
                   (Normal (Data (mkAuthData (Some u) session)))
                   org f_upsert now T))
         = Some old).
Proof.
  split; [|split].
  - intros now NEW T old Hold. rewrite (handle_new_user_update _ _ _ old)
      by auto.
    eexists. split; [reflexivity|]. split.
    + apply update_where_ext_in; auto.
    + rewrite find_id_update_where, Hold.
      * simpl. eexists. split; reflexivity.
      * intros r Hr. now rewrite assign_id_kept.
  - intros. apply signUp_table.
  - intros. now rewrite signUp_table.
Qed.

Lemma update_where_twice w set1 set2 (T : table) :
  (forall r, w (set1 r) = w r) ->
  update_where w set2 (update_where w set1 T)
  = update_where w (fun r => set2 (set1 r)) T.
Proof.
  intros H. unfold update_where. rewrite map_map. apply map_ext.
  intros r. destruct (w r) eqn:E; [rewrite H, E | rewrite E]; auto.
Qed.

Lemma existsb_update_where w set (T : table) :
  (forall r, w (set r) = w r) ->
  existsb w (update_where w set T) = existsb w T.
Proof.
  intros H. unfold update_where. induction T as [|r T IH]; simpl; auto.
  rewrite IH. destruct (w r) eqn:E; [rewrite H, E | rewrite E]; auto.
Qed.

(** The block, when a row holds the reserved email. *)
Lemma super_admin_block_update now auth_users (T : table) :
  existsb (has_email SUPER_ADMIN_EMAIL) T = true ->
  super_admin_block defaults now auth_users T
  = update_where (has_email SUPER_ADMIN_EMAIL) (canonical now) T.
Proof.
  intros H. unfold super_admin_block. rewrite H. simpl.
  apply update_where_ext_in; auto.
Qed.

(** [ensureSuperAdmin] changes nothing when every row that holds the
    reserved email has the role [super_admin]. *)
Lemma ensureSuperAdmin_idle c f_select f_update now (T : table) :
  (forall r, In r T -> email r = SUPER_ADMIN_EMAIL -> role r = super_admin) ->
  snd (ensureSuperAdmin true c f_select f_update now T) = T.
Proof.
  intros H. destruct c as [|uid|];
    try (apply ensureSuperAdmin_table; discriminate).
  unfold ensureSuperAdmin. cbn [negb].
  unfold try_catch, bind, send, ret.
  destruct f_select; try reflexivity.
  rewrite select_where_service_role. simpl.
  destruct (filter (has_email SUPER_ADMIN_EMAIL) T)
    as [|p [|q rows]] eqn:E; simpl; auto.
  assert (In p (filter (has_email SUPER_ADMIN_EMAIL) T)) as Hp
      by (rewrite E; now left).
  apply filter_In in Hp. destruct Hp as [Hp He].
  apply String.eqb_eq in He.
  rewrite (H p Hp He). reflexivity.
Qed.

(** [ensureSuperAdmin] with the backend credential, when one row holds
    the reserved email and its role is wrong. *)
Lemma ensureSuperAdmin_corrects now (T : table) r0 :
  pk_unique T -> In r0 T -> email r0 = SUPER_ADMIN_EMAIL ->
  (forall r, In r T -> email r = SUPER_ADMIN_EMAIL -> r = r0) ->
  role r0 <> super_admin ->
  snd (ensureSuperAdmin true service_role no_fault no_fault now T)
  = update_where (has_email SUPER_ADMIN_EMAIL) (canonical now) T.
Proof.
  intros ND Hin Hem Honly Hrole.
  assert (forall r, In r T ->
             has_email SUPER_ADMIN_EMAIL r = has_id (id r0) r) as W.
  { intros r Hr. destruct (has_id (id r0) r) eqn:E.
    - apply has_id_true in E.
      assert (r = r0) by now apply (pk_unique_inj T). subst r.
      now apply String.eqb_eq.
    - destruct (has_email SUPER_ADMIN_EMAIL r) eqn:E'; auto.
      apply String.eqb_eq in E'. rewrite (Honly r Hr E') in E.
      now rewrite has_id_refl in E. }
  unfold ensureSuperAdmin. cbn [negb].
  unfold try_catch, bind, send, ret.
  rewrite select_where_service_role.
  rewrite (filter_ext_in _ _ _ W), filter_has_id_unique by auto.
  simpl.
  destruct (user_role_eqb (role r0) super_admin) eqn:Er.
  { apply user_role_eqb_eq in Er. contradiction. }
  simpl. rewrite rls_update_service_role.
  assert (map id (update_where (has_email SUPER_ADMIN_EMAIL)
                    (assign (ensureSuperAdmin_values now)) T) = map id T)
    as M.
  { apply update_where_ids. intros r. reflexivity. }
  rewrite M. apply distinct_NoDup in ND. rewrite ND. simpl.
  apply update_where_ext_in; auto.
Qed.

(** C2 (amended).  The block of the migration, run on a table in which a
    row holds the reserved email, sets the role of that row to
    [super_admin], its organization to null, [email_verified] and
    [is_active] to true and the names to Super Admin, whatever they were;
    a row that was already correct changes in [updated_at] only; and two
    runs leave what the later one alone leaves.  [ensureSuperAdmin] looks
    at the stored role alone: it changes nothing when that is
    [super_admin], whoever runs it and whatever else in the row has
    drifted.  Run with the credential that the store lets read and update
    the row, it makes the correction of the block when the stored role is
    not [super_admin], and changes nothing when it runs again, for
    whatever caller. *)
Theorem super_admin_reconciliation :
  (forall now auth_users (T : table),
      existsb (has_email SUPER_ADMIN_EMAIL) T = true ->
      super_admin_block defaults now auth_users T
      = update_where (has_email SUPER_ADMIN_EMAIL) (canonical now) T
      /\ (forall r, is_canonical r ->
            canonical now r
            = {| id := id r; email := email r;
                 first_name := first_name r; last_name := last_name r;
                 role := role r; organization_id := organization_id r;
                 email_verified := email_verified r;
                 is_active := is_active r; last_login := last_login r;
                 created_at := created_at r; updated_at := now |})
      /\ (forall now',
            super_admin_block defaults now' auth_users
              (super_admin_block defaults now auth_users T)
            = super_admin_block defaults now' auth_users T))
  /\ (forall now (T : table) r0,
         pk_unique T -> In r0 T -> email r0 = SUPER_ADMIN_EMAIL ->
         (forall r, In r T -> email r = SUPER_ADMIN_EMAIL -> r = r0) ->
         (role r0 <> super_admin ->
          snd (ensureSuperAdmin true service_role no_fault no_fault now T)
          = update_where (has_email SUPER_ADMIN_EMAIL) (canonical now) T)
         /\ (role r0 = super_admin ->
             forall c f_select f_update,
               snd (ensureSuperAdmin true c f_select f_update now T) = T)
         /\ (forall c' f_select f_update now',
               snd (ensureSuperAdmin true c' f_select f_update now'
                      (snd (ensureSuperAdmin true service_role no_fault
                              no_fault now T)))
               = snd (ensureSuperAdmin true service_role no_fault no_fault
                        now T))).
Proof.
  split.
  - intros now auth_users T H. split; [now apply super_admin_block_update|].
    split.
    + intros r (H1 & H2 & H3 & H4 & H5 & H6). unfold canonical.
      now rewrite H1, H2, H3, H4, H5, H6.
    + intros now'. rewrite (super_admin_block_update now) by auto.
      rewrite !super_admin_block_update; auto.
      * rewrite update_where_twice by reflexivity.
        apply update_where_ext_in; auto.
      * rewrite existsb_update_where; auto.
  - intros now T r0 ND Hin Hem Honly. split; [|split].
    + now apply ensureSuperAdmin_corrects.
    + intros H1 c f_select f_update. apply ensureSuperAdmin_idle.
      intros r Hr Er. now rewrite (Honly r Hr Er).
    + intros c' f_select f_update now'. apply ensureSuperAdmin_idle.
      destruct (user_role_eqb (role r0) super_admin) eqn:Er.
      * apply user_role_eqb_eq in Er.
        rewrite ensureSuperAdmin_idle.
        -- intros r Hr E. now rewrite (Honly r Hr E).
        -- intros r Hr E. now rewrite (Honly r Hr E).
      * rewrite (ensureSuperAdmin_corrects now T r0); auto.
        -- intros r Hr E. unfold update_where in Hr.
           apply in_map_iff in Hr. destruct Hr as [r' [Er' Hr']].
           destruct (has_email SUPER_ADMIN_EMAIL r') eqn:E'.
           ++ now subst r.
           ++ subst r. apply String.eqb_neq in E'. contradiction.
        -- intros E. apply user_role_eqb_eq in E. congruence.
Qed.

Lemma keeps_refl (T : table) : keeps T T.
Proof. split; auto. Qed.

Lemma keeps_trans (T1 T2 T3 : table) :
  keeps T1 T2 -> keeps T2 T3 -> keeps T1 T3.
Proof. intros [A1 A2] [B1 B2]. split; auto. Qed.

Lemma keeps_same_ids (T T' : table) : map id T' = map id T -> keeps T T'.
Proof. intros E. unfold keeps, pk_unique. rewrite E. auto. Qed.

Lemma keeps_insert_on_conflict new set (T : table) :
  (forall r, id r = id new -> id (set r) = id r) ->
  keeps T (insert_on_conflict_id new set T).
Proof.
  intros H. split.
  - now apply insert_on_conflict_pk.
  - intros i. now apply insert_on_conflict_keeps.
Qed.

Lemma keeps_after_handle_new_user raised now NEW (T : table) :
  keeps T (after_handle_new_user defaults raised now NEW T).
Proof.
  unfold after_handle_new_user, handle_new_user, handle_new_user_body.
  destruct raised as [e|];
    destruct (String.eqb (users.email NEW) SUPER_ADMIN_EMAIL);
    try apply keeps_refl;
    apply keeps_insert_on_conflict; intros r _; reflexivity.
Qed.

Lemma keeps_super_admin_block now auth_users (T : table) :
  keeps T (super_admin_block defaults now auth_users T).
Proof.
  unfold super_admin_block.
  destruct (negb (existsb (has_email SUPER_ADMIN_EMAIL) T)).
  - generalize (filter (fun u => String.eqb (users.email u) SUPER_ADMIN_EMAIL)
                       auth_users).
    intros l. revert T. induction l as [|u l IH]; intros T; simpl.
    + apply keeps_refl.
    + eapply keeps_trans; [|apply IH].
      apply keeps_insert_on_conflict. intros r _. reflexivity.
  - apply keeps_same_ids. apply update_where_ids. intros r. reflexivity.
Qed.

Lemma keeps_ensureSuperAdmin configured c f_select f_update now (T : table) :
  keeps T (snd (ensureSuperAdmin configured c f_select f_update now T)).
Proof.
  unfold ensureSuperAdmin. destruct configured; simpl;
    [|apply keeps_refl].
  unfold try_catch, bind, send, ret.
  destruct f_select; simpl; try apply keeps_refl.
  destruct (and_then (select_where c (has_email SUPER_ADMIN_EMAIL) T)
                     maybeSingle)
    as [[p|]|e]; simpl; try apply keeps_refl.
  destruct (negb (user_role_eqb (role p) super_admin)); simpl;
    try apply keeps_refl.
  destruct f_update; simpl; try apply keeps_refl.
  destruct (rls_update_table c (has_email SUPER_ADMIN_EMAIL)
              (ensureSuperAdmin_values now) T) as [E | (w' & E & _)].
  - destruct (rls_update c _ _ T) as [a T1]. simpl in *. subst T1.
    apply keeps_refl.
  - destruct (rls_update c _ _ T) as [a T1]. simpl in *. subst T1.
    apply keeps_same_ids. apply update_where_ids. intros r. reflexivity.
Qed.

Lemma keeps_step o (T : table) : keeps T (step defaults o T).
Proof.
  destruct o; simpl.
  - apply keeps_after_handle_new_user.
  - rewrite signUp_table. apply keeps_refl.
  - apply keeps_super_admin_block.
  - apply keeps_ensureSuperAdmin.
  - rewrite getCurrentProfile_null. apply keeps_refl.
Qed.

Lemma keeps_run ops (T : table) : keeps T (run defaults ops T).
Proof.
  unfold run. revert T. induction ops as [|o ops IH]; intros T; simpl.
  - apply keeps_refl.
  - eapply keeps_trans; [apply keeps_step | apply IH].
Qed.

(** C4 (amended).  The trigger, [signUp], the block of the migration,
    [ensureSuperAdmin] and [getCurrentProfile], run any number of times
    in any order, never leave two profile rows with one [id], and never
    remove the row of an [id] that has one.  After the sign-up of a
    Principal in which the trigger's statement did not raise, or after
    which a row has the Principal's [id] (as it has when the store took
    the facade's upsert), exactly one profile row has the Principal's
    [id], whatever runs afterwards. *)
Theorem one_profile_per_principal (T0 : table) (ops : list op) :
  pk_unique T0 ->
  (forall i,
      count_id i (run defaults ops T0) <= 1
      /\ (count_id i T0 = 1 -> count_id i (run defaults ops T0) = 1))
  /\ (forall P raised t email firstName lastName organizationName session
             org f_upsert now,
         raised = None
         \/ In (users.id P)
               (map id
                  (run defaults
                     [ run_handle_new_user raised t P;
                       run_signUp true email firstName lastName
                         organizationName
                         (Normal (Data (mkAuthData (Some P) session)))
                         org f_upsert now ] T0)) ->
         count_id (users.id P)
           (run defaults
              (run_handle_new_user raised t P
                 :: run_signUp true email firstName lastName
                      organizationName
                      (Normal (Data (mkAuthData (Some P) session)))
                      org f_upsert now
                 :: ops) T0)
         = 1).
Proof.
  intros ND. split.
  - intros i. destruct (keeps_run ops T0) as [K1 K2]. split.
    + apply count_id_le_1. auto.
    + intros H. apply count_id_in; auto. apply K2.
      destruct (in_dec Nat.eq_dec i (map id T0)) as [Hin|Hout]; auto.
      rewrite count_id_absent in H by auto. discriminate.
  - intros P raised t email firstName lastName organizationName session
           org f_upsert now Hok.
    simpl in *.
    set (T1 := after_handle_new_user defaults raised t P T0) in *.
    set (T2 := snd (signUp defaults true email firstName lastName
                      organizationName
                      (Normal (Data (mkAuthData (Some P) session)))
                      org f_upsert now T1)) in *.
    assert (keeps T0 T1) as K1 by apply keeps_after_handle_new_user.
    assert (keeps T1 T2) as K2
        by (unfold T2; rewrite signUp_table; apply keeps_refl).
    assert (keeps T2 (run defaults ops T2)) as K3 by apply keeps_run.
    apply count_id_in.
    + apply K3, K2, K1, ND.
    + apply K3.
      destruct Hok as [-> | Hin]; [|exact Hin].
      apply K2. unfold T1, after_handle_new_user, handle_new_user,
        handle_new_user_body.
      destruct (String.eqb (users.email P) SUPER_ADMIN_EMAIL);
        apply (insert_on_conflict_has
                 (inserted defaults (handle_new_user_values t P _ None)));
        intros r _; reflexivity.
Qed.

End Bootstrap.

(** * Instances *)

Lemma sample_table_pk : pk_unique sample_table.
Proof. apply distinct_NoDup. reflexivity. Defined.

Lemma in_sample_table :
  In alice sample_table /\ In bob sample_table /\ In carol sample_table
  /\ In dave sample_table /\ In root sample_table.
Proof. simpl. auto 10. Defined.

(** ** C1 *)

(** The trigger on the reserved Principal; what [signUp] derives for
    another email with an organization that was created; and the row of
    that Principal after the trigger and this sign-up. *)
Lemma bootstrap_role_derivation_witness :
  (exists T' r,
      handle_new_user sample_defaults None 7 root_user [bob]
      = Done (root_user, T')
      /\ find_id 5 T' = Some r
      /\ role r = super_admin /\ organization_id r = None)
  /\ signUp_role "bob@co.com" (Some 10) = (org_admin, Some 10)
  /\ exists r,
       find_id 2
         (snd (signUp sample_defaults true "bob@co.com" None None
                 (Some "Acme"%string)
                 (Normal (Data (mkAuthData (Some bob_user) true)))
                 (Normal (Data 10)) no_fault 4
                 (after_handle_new_user sample_defaults None 4 bob_user
                    [alice])))
       = Some r
       /\ role r = user /\ organization_id r = None.
Proof.
  destruct (bootstrap_role_derivation sample_defaults)
    as (H1 & H2 & _ & H4).
  split; [|split].
  - destruct (H1 7 root_user [bob] eq_refl) as (T' & r & E1 & E2 & E3 & _).
    exists T', r. destruct (E3 eq_refl) as [E4 E5]. auto.
  - destruct (H2 "bob@co.com"%string (Some "Acme"%string) (Normal (Data 10))
                 [alice]) as (oid & E & Ho & _ & Hr & _).
    assert (oid = Some 10) as -> by (apply Ho; split; reflexivity).
    apply Hr; [discriminate | reflexivity].
  - apply (H4 4 bob_user "bob@co.com"%string None None (Some "Acme"%string)
              true (Normal (Data 10)) no_fault 4 [alice]).
    + reflexivity.
    + discriminate.
Defined.

(** ** C2 *)

(** Both passes on a row of the reserved identity whose role and flags
    are wrong. *)
Lemma super_admin_reconciliation_witness :
  super_admin_block sample_defaults 9 [] [demoted_root; bob]
  = [canonical 9 demoted_root; bob]
  /\ snd (ensureSuperAdmin true service_role no_fault no_fault 9
            [demoted_root; bob])
     = [canonical 9 demoted_root; bob].
Proof.
  destruct (super_admin_reconciliation sample_defaults) as [H1 H2]. split.
  - destruct (H1 9 [] [demoted_root; bob] eq_refl) as [E _].
    rewrite E. reflexivity.
  - destruct (H2 9 [demoted_root; bob] demoted_root) as [E _].
    + apply distinct_NoDup. reflexivity.
    + simpl. auto.
    + reflexivity.
    + intros r [<-|[<-|[]]] Er; [reflexivity | discriminate Er].
    + rewrite E; [reflexivity | discriminate].
Defined.

(** Where a run does not do what C2 says.  [ensureSuperAdmin] leaves a
    row whose role is [super_admin] as it is, with an organization and
    the flags that drifted, also when it runs with the backend
    credential.  In a session it leaves a wrong role as well.  The block
    writes [updated_at] of a row that is correct. *)
Lemma reconciliation_leaves_drift_and_touches_correct_rows :
  snd (ensureSuperAdmin true (authenticated 5) no_fault no_fault 9
         [drifted_root]) = [drifted_root]
  /\ organization_id drifted_root = Some 10
  /\ is_active drifted_root = false
  /\ snd (ensureSuperAdmin true (authenticated 2) no_fault no_fault 9
            [demoted_root; bob]) = [demoted_root; bob]
  /\ role demoted_root = user
  /\ is_canonical root
  /\ map updated_at [root] = [1]
  /\ map updated_at (super_admin_block sample_defaults 9 [root_user] [root])
     = [9]
  /\ snd (ensureSuperAdmin true service_role no_fault no_fault 9
            [drifted_root]) = [drifted_root].
Proof. repeat split; reflexivity. Qed.

(** ** C3 *)

(** The trigger, then [signUp] without organization, on the row of the
    admin of an organization. *)
Lemma upsert_on_existing_row_witness :
  (exists T',
      handle_new_user sample_defaults None 9 alice_user [alice; bob]
      = Done (alice_user, T')
      /\ option_map role (find_id 1 T') = Some org_admin)
  /\ find_id 1
       (snd (signUp sample_defaults true "alice@co.com" None
               (Some "Archer"%string) None
               (Normal (Data (mkAuthData (Some alice_user) true)))
               (Throw (new_Error "offline")) no_fault 9 [alice; bob]))
     = Some alice.
Proof.
  destruct (upsert_on_existing_row sample_defaults) as (H1 & _ & H3). split.
  - destruct (H1 9 alice_user [alice; bob] alice eq_refl)
      as (T' & E1 & E2 & new & E3 & E4).
    exists T'. split; [exact E1|]. simpl in E3. rewrite E3. simpl.
    now rewrite E4.
  - apply (H3 "alice@co.com"%string None (Some "Archer"%string) None
              alice_user true (Throw (new_Error "offline")) no_fault 9
              [alice; bob] alice).
    reflexivity.
Defined.

(** ** C4 *)

(** A sign-up whose trigger ran, followed by the trigger again, a
    sign-up again and both reconciliation passes. *)
Lemma one_profile_per_principal_witness :
  count_id 2
    (run sample_defaults
       [ run_handle_new_user None 4 bob_user;
         run_signUp true "bob@co.com" None None None
           (Normal (Data (mkAuthData (Some bob_user) false)))
           (Throw (new_Error "offline")) (refused insufficient_privilege) 4;
         run_handle_new_user None 5 bob_user;
         run_super_admin_block 6 [bob_user; root_user];
         run_ensureSuperAdmin true (authenticated 2) no_fault no_fault 7;
         run_getCurrentProfile true (Normal (Data (Some bob_user)))
           no_fault no_fault no_fault 7;
         run_signUp true "bob@co.com" None None None
           (Normal (Data (mkAuthData (Some bob_user) true)))
           (Throw (new_Error "offline")) no_fault 8 ]
       [alice])
  = 1.
Proof.
  assert (pk_unique [alice]) as ND by (apply distinct_NoDup; reflexivity).
  apply (proj2 (one_profile_per_principal sample_defaults [alice]
                  [ run_handle_new_user None 5 bob_user;
                    run_super_admin_block 6 [bob_user; root_user];
                    run_ensureSuperAdmin true (authenticated 2) no_fault
                      no_fault 7;
                    run_getCurrentProfile true
                      (Normal (Data (Some bob_user))) no_fault no_fault
                      no_fault 7;
                    run_signUp true "bob@co.com" None None None
                      (Normal (Data (mkAuthData (Some bob_user) true)))
                      (Throw (new_Error "offline")) no_fault 8 ]
                  ND)
               bob_user None 4 "bob@co.com"%string None None None false
               (Throw (new_Error "offline"))
               (refused insufficient_privilege) 4).
  left. reflexivity.
Defined.

(** After a sign-up in which the trigger's statement raised and the
    store refused the facade's upsert, [signUp] has returned
    [success: true] and no profile row has the Principal's [id], also
    after both reconciliation passes. *)
Lemma signUp_can_leave_no_profile :
  success
    (match signUp sample_defaults true "bob@co.com" None None None
             (Normal (Data (mkAuthData (Some bob_user) true)))
             (Throw (new_Error "offline")) (refused insufficient_privilege)
             4 (after_handle_new_user sample_defaults
                  (Some "null value violates not-null constraint"%string)
                  4 bob_user [alice])
     with
     | (Normal r, _) => r
     | (Throw _, _) => failure None
     end) = true
  /\ count_id 2
       (run sample_defaults
          [ run_handle_new_user
              (Some "null value violates not-null constraint"%string)
              4 bob_user;
            run_signUp true "bob@co.com" None None None
              (Normal (Data (mkAuthData (Some bob_user) true)))
              (Throw (new_Error "offline"))
              (refused insufficient_privilege) 4;
            run_super_admin_block 6 [bob_user];
            run_ensureSuperAdmin true (authenticated 2) no_fault no_fault 7 ]
          [alice])
     = 0.
Proof. split; reflexivity. Qed.

(** ** C5 *)

(** The session of a user: the fetch of its own profile and an update of
    its own first name. *)
Lemma own_row_is_out_of_reach_witness :
  getCurrentProfile sample_defaults true (Normal (Data (Some bob_user)))
                    no_fault no_fault no_fault 9 sample_table
  = (Normal None, sample_table)
  /\ rls_update (authenticated 2) (has_id 2)
       {| c_id := None; c_email := None; c_first_name := Some "Bob"%string;
          c_last_name := None; c_role := None; c_organization_id := None;
          c_email_verified := None; c_is_active := None;
          c_last_login := None; c_created_at := None;
          c_updated_at := None |}
       sample_table
     = (Err infinite_recursion, sample_table).
Proof.
  destruct (own_row_is_out_of_reach sample_table bob)
    as (_ & _ & _ & H4 & H5 & _).
  split.
  - apply H5. reflexivity.
  - apply H4.
Defined.

(** ** C6 *)

(** The admin of organization 10 and a member of it: the expression
    accepts the member's row, and the admin's [SELECT] is refused. *)
Lemma org_scoped_select_is_refused_witness :
  holds (authenticated 1) sample_table
        (USING profiles_org_admin_select_org) carol = true
  /\ select_where (authenticated 1) (has_id 3) sample_table
     = Err infinite_recursion.
Proof.
  destruct (org_scoped_select_is_refused sample_table alice carol)
    as (_ & H2 & _ & H4).
  split.
  - apply (proj1 (H4 sample_table_pk (proj1 in_sample_table))
                 (or_introl eq_refl) 10 eq_refl).
    reflexivity.
  - apply H2.
Defined.

(** ** C7 *)

(** The session of a Principal without profile row. *)
Lemma bootstrap_errors_do_not_abort_witness :
  getCurrentProfile sample_defaults true (Normal (Data (Some bob_user)))
                    no_fault no_fault no_fault 4 [alice]
  = (Normal None, [alice])
  /\ getCurrentProfile sample_defaults true (Normal (Data (Some bob_user)))
                       (refused PGRST116) no_fault no_fault 4 [alice]
     = (Normal None, [alice]).
Proof.
  destruct (bootstrap_errors_do_not_abort sample_defaults)
    as (_ & _ & H3 & H4).
  split.
  - apply H3.
  - apply H4. reflexivity.
Defined.

(** ** C8 *)

(** The admin of organization 10 reads the profile of a manager of
    organization 20 and the profile of an [id] that has no row. *)
Lemma denied_read_is_answered_as_a_missing_row_witness :
  select_profile (authenticated 1) no_fault 77 sample_table
  = select_profile (authenticated 1) no_fault 4 sample_table
  /\ select_profile anon no_fault 77 sample_table
     = select_profile anon no_fault 4 sample_table.
Proof.
  split.
  - apply (denied_read_is_answered_as_a_missing_row (authenticated 1)
             sample_table dave 77 sample_table_pk).
    + apply in_sample_table.
    + simpl. intuition discriminate.
    + discriminate.
  - apply (denied_read_is_answered_as_a_missing_row anon
             sample_table dave 77 sample_table_pk).
    + apply in_sample_table.
    + simpl. intuition discriminate.
    + rewrite select_profile_anon. discriminate.
Defined.

(** The row of the manager exists and the admin of another organization
    does not get it; the answer is the answer for an [id] that has no
    row. *)
Lemma denied_read_and_missing_row_are_alike :
  In dave sample_table
  /\ find_id 77 sample_table = None
  /\ (forall T',
        select_profile (authenticated (id alice)) no_fault (id dave)
                       sample_table
        <> (Normal (Data dave), T'))
  /\ select_profile (authenticated (id alice)) no_fault (id dave) sample_table
     = select_profile (authenticated (id alice)) no_fault 77 sample_table.
Proof.
  split; [simpl; auto 10|]. split; [reflexivity|].
  split; [intros T'; discriminate | reflexivity].
Qed.

(** ** C10 *)

(** A user asks for the role [super_admin]: the object that is sent, and
    the row as it would be written. *)
Lemma own_update_policy_asks_for_the_id_only_witness :
  holds (authenticated 2) []
        (coalesce (WITH_CHECK profiles_update_own)
                  (USING profiles_update_own))
        (assign
           {| c_id := None; c_email := None; c_first_name := None;
              c_last_name := None; c_role := Some super_admin;
              c_organization_id := Some (Some 20);
              c_email_verified := None; c_is_active := None;
              c_last_login := None; c_created_at := None;
              c_updated_at := None |} bob) = true
  /\ fst (updateProfile true (Normal (Data (Some bob_user)))
            {| c_id := None; c_email := None; c_first_name := None;
               c_last_name := None; c_role := Some super_admin;
               c_organization_id := Some (Some 20);
               c_email_verified := None; c_is_active := None;
               c_last_login := None; c_created_at := None;
               c_updated_at := None |} no_fault 9 [alice; bob])
     = Normal
         (match
             and_then
               (fst (rls_update (authenticated 2) (has_id 2)
                       (updateProfile_values
                          {| c_id := None; c_email := None;
                             c_first_name := None; c_last_name := None;
                             c_role := Some super_admin;
                             c_organization_id := Some (Some 20);
                             c_email_verified := None; c_is_active := None;
                             c_last_login := None; c_created_at := None;
                             c_updated_at := None |} 9)
                       [alice; bob]))
               single
           with
           | Data d => succeeded (Some d)
           | Err e => failure (message e)
           end).
Proof.
  destruct own_update_policy_asks_for_the_id_only as (_ & H2 & _ & H4).
  split.
  - apply H2. reflexivity.
  - rewrite (H4 true (Normal (Data (Some bob_user))) _ 9 [alice; bob]
               bob_user eq_refl).
    reflexivity.
Defined.

(** The policy does place a condition on what is written: a row that is
    given another [id] fails it.  And the store does not let the update
    of the own row through that the claim describes: it is answered with
    the error 42P17, the role stays, and [updateProfile] returns the
    failure.  An [updated_at] that the caller of [updateProfile] gives is
    not what is sent. *)
Lemma own_update_may_not_write_id :
  holds (authenticated 2) [] (USING profiles_update_own) bob = true
  /\ holds (authenticated 2) []
           (coalesce (WITH_CHECK profiles_update_own)
                     (USING profiles_update_own))
           (assign
              {| c_id := Some 99; c_email := None; c_first_name := None;
                 c_last_name := None; c_role := None;
                 c_organization_id := None; c_email_verified := None;
                 c_is_active := None; c_last_login := None;
                 c_created_at := None; c_updated_at := None |} bob)
     = false
  /\ updateProfile true (Normal (Data (Some bob_user)))
       {| c_id := None; c_email := None; c_first_name := None;
          c_last_name := None; c_role := Some super_admin;
          c_organization_id := None; c_email_verified := None;
          c_is_active := None; c_last_login := None; c_created_at := None;
          c_updated_at := None |}
       no_fault 9 [alice; bob]
     = (Normal (failure (message infinite_recursion)), [alice; bob])
  /\ c_updated_at
       (updateProfile_values
          {| c_id := None; c_email := None; c_first_name := None;
             c_last_name := None; c_role := None;
             c_organization_id := None; c_email_verified := None;
             c_is_active := None; c_last_login := None;
             c_created_at := None; c_updated_at := Some 1 |} 9)
     = Some 9.
Proof. repeat split; reflexivity. Qed.

(** * Further properties *)

(** ** The policies on [profiles] *)

(** X1.  Without a session nothing is allowed on [profiles]; a session
    may never insert or delete a profile row, whoever it belongs to and
    whatever the table holds; the backend credential may do
    everything. *)
Theorem only_the_backend_inserts_and_deletes (T : table) (r : Profile) :
  (forall cmd,
      using_ok cmd anon T r = Data false
      /\ check_ok cmd anon T r = Data false)
  /\ (forall uid,
         using_ok INSERT (authenticated uid) T r = Data false
         /\ check_ok INSERT (authenticated uid) T r = Data false
         /\ using_ok DELETE (authenticated uid) T r = Data false)
  /\ (forall cmd,
         using_ok cmd service_role T r = Data true
         /\ check_ok cmd service_role T r = Data true).
Proof.
  split; [|split].
  - intros cmd. destruct cmd; split; reflexivity.
  - intros uid. repeat split; reflexivity.
  - intros cmd. destruct cmd; split; reflexivity.
Qed.

(** X2.  In a session the rewriter refuses exactly the statements on
    [profiles] to which policies of [SELECT] or of [UPDATE] are added.
    So every fetch, every update and every upsert of a session is
    answered with the error 42P17, whatever the table, the condition and
    the columns, and an insertion is answered with 42501; none of them
    changes the table. *)
Theorem session_statements_are_refused defaults uid (T : table) :
  (forall cmds,
      expand_policies cmds (authenticated uid) = Some infinite_recursion
      <-> existsb (fun cmd => command_eqb cmd SELECT || command_eqb cmd UPDATE)
                  cmds = true)
  /\ (forall w, select_where (authenticated uid) w T = Err infinite_recursion)
  /\ (forall w cols,
         rls_update (authenticated uid) w cols T = (Err infinite_recursion, T))
  /\ (forall cols,
         rls_upsert defaults (authenticated uid) cols T
         = (Err infinite_recursion, T))
  /\ (forall cols,
         rls_insert defaults (authenticated uid) cols T
         = (Err insufficient_privilege, T)).
Proof.
  split; [|repeat split; reflexivity].
  intros cmds. split; [|apply expand_policies_session].
  destruct (existsb _ cmds) eqn:E; [reflexivity|].
  intros H. exfalso. unfold expand_policies in H.
  replace (existsb
             (fun cmd =>
                existsb policy_has_subquery
                        (policies_for cmd (authenticated uid))) cmds)
    with false in H; [discriminate|].
  symmetry. clear H. induction cmds as [|cmd cmds IH]; [reflexivity|].
  simpl in E. apply orb_false_iff in E. destruct E as [E1 E2].
  simpl. rewrite (IH E2). destruct cmd; try discriminate; reflexivity.
Qed.

(** X3.  Without a session a fetch on [profiles] finds no row and is not
    an error, an update writes nothing, and an insertion or an upsert is
    answered with 42501; none of them changes the table. *)
Theorem nothing_is_reached_without_a_session defaults (T : table) :
  (forall w, select_where anon w T = Data [])
  /\ (forall i, select_profile anon no_fault i T = (Normal (Err PGRST116), T))
  /\ (forall w cols, snd (rls_update anon w cols T) = T)
  /\ (pk_unique T -> forall w cols, rls_update anon w cols T = (Data [], T))
  /\ (forall cols,
         rls_insert defaults anon cols T = (Err insufficient_privilege, T))
  /\ (forall cols,
         rls_upsert defaults anon cols T = (Err insufficient_privilege, T)).
Proof.
  split; [intros; apply select_where_anon|].
  split; [intros; apply select_profile_anon|].
  split; [intros; apply rls_update_anon_table|].
  split; [intros; now apply rls_update_anon|].
  split; reflexivity.
Qed.

(** ** The policy on [analytics] *)

(** X4.  The expression of [analytics_org_access] holds for a row exactly
    when the profile of the session has the role [super_admin] or the
    organization of the row.  The store does not get as far: the
    subquery of the policy selects from [profiles], whose [SELECT]
    policies select from [profiles] again, so that every statement of a
    session on [analytics] is answered with the error 42P17.  Without a
    session no row is reached.  For a row without organization, as the
    three rows that the migration inserts, the expression holds for a
    [super_admin] only. *)
Theorem analytics_access (T : table) (a : analytics.row) :
  (forall uid,
      analytics_org_access (authenticated uid) T a = Err infinite_recursion)
  /\ analytics_org_access anon T a = Data false
  /\ (forall actor, pk_unique T -> In actor T ->
         (holds (authenticated (id actor)) T analytics_org_access_using a
          = true
          <-> role actor = super_admin
              \/ exists A, organization_id actor = Some A
                           /\ analytics.organization_id a = Some A)
         /\ forall s, In s sample_analytics ->
              (holds (authenticated (id actor)) T
                     analytics_org_access_using s = true
               <-> role actor = super_admin)).
Proof.
  split; [reflexivity|]. split; [reflexivity|].
  intros actor ND Ha. unfold analytics_org_access_using. split.
  - rewrite holds_exists_own_profile by auto.
    rewrite orb_true_iff, user_role_eqb_eq. split.
    + intros [H|H]; auto. right.
      destruct (organization_id actor) as [x|],
               (analytics.organization_id a) as [y|];
        simpl in H; try discriminate.
      apply Nat.eqb_eq in H. subst y. eauto.
    + intros [H|[A [H1 H2]]]; auto. right. rewrite H1, H2. simpl.
      apply Nat.eqb_refl.
  - intros s Hs. rewrite holds_exists_own_profile by auto.
    rewrite orb_true_iff, user_role_eqb_eq.
    assert (analytics.organization_id s = None) as ->.
    { simpl in Hs. destruct Hs as [<-|[<-|[<-|[]]]]; reflexivity. }
    split; [intros [H|H]; auto | auto].
    destruct (organization_id actor); discriminate.
Qed.

(** ** [get_user_profile] *)

Lemma filter_organization_unique (orgs : list organizations.row) oid :
  NoDup (map organizations.id orgs) ->
  filter (fun o => Nat.eqb oid (organizations.id o)) orgs
  = match find (fun o => Nat.eqb oid (organizations.id o)) orgs with
    | Some o => [o]
    | None => []
    end.
Proof.
  induction orgs as [|o orgs IH]; simpl; intros ND; auto.
  inversion ND as [|? ? Hnotin ND']; subst.
  destruct (Nat.eqb oid (organizations.id o)) eqn:E.
  - f_equal. apply filter_none. intros o' Ho'.
    apply Nat.eqb_eq in E. apply Nat.eqb_neq. intros E'.
    apply Hnotin. rewrite <- E, E'. now apply in_map.
  - now apply IH.
Qed.

Lemma left_join_one (orgs : list organizations.row) (p : Profile) :
  NoDup (map organizations.id orgs) ->
  left_join_organizations orgs p = [(p, organization_of orgs p)].
Proof.
  intros ND. unfold left_join_organizations, organization_of.
  destruct (organization_id p) as [oid|]; simpl.
  - rewrite filter_organization_unique by auto.
    destruct (find _ orgs); reflexivity.
  - rewrite filter_none; auto.
Qed.

Lemma filter_left_join (orgs : list organizations.row) (T : table) i :
  filter (fun po : Profile * option organizations.row =>
            Nat.eqb (id (fst po)) i)
         (flat_map (left_join_organizations orgs) T)
  = flat_map (left_join_organizations orgs) (filter (has_id i) T).
Proof.
  induction T as [|p T IH]; simpl; auto.
  rewrite filter_app, IH. unfold has_id at 2.
  assert (forall l : list (Profile * option organizations.row),
             (forall po, In po l -> fst po = p) ->
             filter (fun po => Nat.eqb (id (fst po)) i) l
             = if Nat.eqb (id p) i then l else []) as F.
  { induction l as [|po l IHl]; simpl; intros H.
    - now destruct (Nat.eqb (id p) i).
    - rewrite (H po) by auto. rewrite IHl by auto.
      now destruct (Nat.eqb (id p) i). }
  rewrite F.
  - destruct (Nat.eqb (id p) i); reflexivity.
  - intros po. unfold left_join_organizations.
    destruct (filter _ orgs) as [|o l]; simpl.
    + intros [<-|[]]. reflexivity.
    + intros [<-|H]; auto. apply in_map_iff in H.
      destruct H as [o' [<- _]]. reflexivity.
Qed.

(** X5.  [get_user_profile] returns no row for a null id and for an id
    without profile row.  For the id of a profile it returns one row: the
    columns of the profile with the name of its organization, or with
    null when the profile has no organization or the organization has no
    row.  It returns the row also to a caller whose own fetch of the
    profile yields no row, be it refused or answered with an error. *)
Theorem get_user_profile_returns_the_joined_row
    (orgs : list organizations.row) (T : table) :
  pk_unique T -> NoDup (map organizations.id orgs) ->
  get_user_profile orgs T None = []
  /\ (forall i, ~ In i (map id T) -> get_user_profile orgs T (Some i) = [])
  /\ (forall p, In p T ->
        get_user_profile orgs T (Some (id p))
        = [ {| user_profile.id := id p;
               user_profile.email := email p;
               user_profile.first_name := first_name p;
               user_profile.last_name := last_name p;
               user_profile.role := role p;
               user_profile.organization_id := organization_id p;
               user_profile.email_verified := email_verified p;
               user_profile.is_active := is_active p;
               user_profile.organization_name :=
                 option_map organizations.name (organization_of orgs p) |} ])
  /\ (forall c p, In p T -> using_ok SELECT c T p <> Data true ->
        (forall rows,
            select_where c (has_id (id p)) T = Data rows -> rows = [])
        /\ map user_profile.role (get_user_profile orgs T (Some (id p)))
           = [role p]).
Proof.
  intros ND NDo.
  assert (forall p, In p T ->
            get_user_profile orgs T (Some (id p))
            = [ {| user_profile.id := id p;
                   user_profile.email := email p;
                   user_profile.first_name := first_name p;
                   user_profile.last_name := last_name p;
                   user_profile.role := role p;
                   user_profile.organization_id := organization_id p;
                   user_profile.email_verified := email_verified p;
                   user_profile.is_active := is_active p;
                   user_profile.organization_name :=
                     option_map organizations.name (organization_of orgs p) |} ])
    as One.
  { intros p Hp. unfold get_user_profile. cbn [sql_eq].
    rewrite filter_left_join, filter_has_id_unique by auto. simpl.
    rewrite left_join_one by auto. reflexivity. }
  split; [|split; [|split]]; auto.
  - unfold get_user_profile. rewrite filter_none; auto.
  - intros i Hout. unfold get_user_profile. cbn [sql_eq].
    rewrite filter_left_join, filter_has_id_absent by auto. reflexivity.
  - intros c p Hp Hden. split.
    + destruct c as [|uid|].
      * rewrite select_where_anon. congruence.
      * rewrite select_where_session. discriminate.
      * exfalso. apply Hden. reflexivity.
    + rewrite One by auto. reflexivity.
Qed.

(** ** The trigger and the block of the migration, run again *)

Section Again.

Variable defaults : Profile.

(** The table that the trigger leaves, in either case. *)
Lemma after_handle_new_user_cases now NEW (T : table) :
  after_handle_new_user defaults None now NEW T
  = match find_id (users.id NEW) T with
    | Some _ =>
        update_where (has_id (users.id NEW))
                     (assign (handle_new_user_conflict now NEW)) T
    | None =>
        T ++ [inserted defaults
                (handle_new_user_values now NEW
                   (if String.eqb (users.email NEW) SUPER_ADMIN_EMAIL
                    then super_admin else user) None)]
    end.
Proof.
  unfold after_handle_new_user.
  destruct (find_id (users.id NEW) T) as [old|] eqn:E.
  - now rewrite (handle_new_user_update defaults now NEW T old).
  - now rewrite handle_new_user_insert.
Qed.

Lemma filter_others_update_where i set (T : table) :
  (forall r, id r = i -> id (set r) = i) ->
  filter (fun r => negb (has_id i r)) (update_where (has_id i) set T)
  = filter (fun r => negb (has_id i r)) T.
Proof.
  intros H. unfold update_where. induction T as [|r T IH]; simpl; auto.
  destruct (has_id i r) eqn:E; simpl.
  - apply has_id_true in E.
    assert (has_id i (set r) = true) as -> by (apply has_id_true; auto).
    simpl. apply IH.
  - rewrite E. simpl. now rewrite IH.
Qed.

Lemma update_where_absent i set (T : table) :
  find_id i T = None -> update_where (has_id i) set T = T.
Proof.
  intros E. apply update_where_none. intros r Hr.
  apply has_id_false. intros Er. apply find_id_none_iff in E.
  apply E. rewrite <- Er. now apply in_map.
Qed.

(** X6.  Running the trigger again for the same Principal changes
    [updated_at] of its profile row and nothing else; at the same instant
    it changes nothing.  A run never adds a row for an id that has one,
    and leaves the rows of every other id as they are and where they
    are. *)
Theorem handle_new_user_again now now' NEW (T : table) :
  after_handle_new_user defaults None now' NEW
    (after_handle_new_user defaults None now NEW T)
  = update_where (has_id (users.id NEW)) (touch now')
      (after_handle_new_user defaults None now NEW T)
  /\ after_handle_new_user defaults None now NEW
       (after_handle_new_user defaults None now NEW T)
     = after_handle_new_user defaults None now NEW T
  /\ length (after_handle_new_user defaults None now NEW T)
     = (if is_not_null (find_id (users.id NEW) T)
        then length T else S (length T))
  /\ filter (fun r => negb (has_id (users.id NEW) r))
            (after_handle_new_user defaults None now NEW T)
     = filter (fun r => negb (has_id (users.id NEW) r)) T.
Proof.
  assert (forall t,
            after_handle_new_user defaults None t NEW
              (after_handle_new_user defaults None now NEW T)
            = update_where (has_id (users.id NEW)) (touch t)
                (after_handle_new_user defaults None now NEW T)) as Again.
  { intros t. rewrite (after_handle_new_user_cases t).
    rewrite (after_handle_new_user_cases now).
    destruct (find_id (users.id NEW) T) as [old|] eqn:E.
    - rewrite find_id_update_where, E by
        (intros r Hr; now rewrite assign_id_kept).
      simpl. rewrite !update_where_twice by reflexivity.
      apply update_where_ext_in; auto.
    - rewrite (find_id_app_fresh _ _ _ E) by reflexivity.
      unfold update_where. rewrite !map_app. f_equal.
      apply map_ext_in. intros r Hr.
      destruct (has_id (users.id NEW) r) eqn:Er; auto.
      apply has_id_true in Er. apply find_id_none_iff in E.
      exfalso. apply E. rewrite <- Er. now apply in_map. }
  split; [apply Again|]. split; [|split].
  - rewrite Again. rewrite (after_handle_new_user_cases now).
    destruct (find_id (users.id NEW) T) as [old|] eqn:E.
    + rewrite update_where_twice by reflexivity.
      apply update_where_ext_in; auto.
    + unfold update_where at 1. rewrite map_app.
      fold (update_where (has_id (users.id NEW)) (touch now) T).
      rewrite update_where_absent by auto. f_equal. simpl.
      unfold has_id. simpl. now rewrite Nat.eqb_refl.
  - rewrite (after_handle_new_user_cases now).
    destruct (find_id (users.id NEW) T) as [old|] eqn:E.
    + unfold update_where. apply length_map.
    + rewrite length_app. simpl. lia.
  - rewrite (after_handle_new_user_cases now).
    destruct (find_id (users.id NEW) T) as [old|] eqn:E.
    + apply filter_others_update_where. intros r Hr.
      now rewrite assign_id_kept.
    + rewrite filter_app. simpl. unfold has_id at 2. simpl.
      rewrite Nat.eqb_refl. simpl. apply app_nil_r.
Qed.

Lemma bootstrap_upsert_elevates now (T : table) u :
  exists r, find_id (users.id u) (bootstrap_upsert defaults now T u) = Some r
            /\ elevated r.
Proof.
  unfold bootstrap_upsert, insert_on_conflict_id.
  assert (id (inserted defaults (bootstrap_values now u)) = users.id u)
    as Eid by reflexivity.
  rewrite Eid, existsb_has_id_find.
  destruct (find_id (users.id u) T) as [old|] eqn:E; simpl.
  - rewrite find_id_update_where, E by
      (intros r Hr; now rewrite assign_id_kept).
    simpl. eexists. split; [reflexivity|]. repeat split.
  - rewrite (find_id_app_fresh _ _ _ E) by reflexivity.
    eexists. split; [reflexivity|]. repeat split.
Qed.

Lemma find_id_app_some i (T : table) r extra :
  find_id i T = Some r -> find_id i (T ++ extra) = Some r.
Proof.
  unfold find_id. induction T as [|x T IH]; simpl; [discriminate|].
  destruct (has_id i x); auto.
Qed.

Lemma bootstrap_upsert_keeps_elevated now (T : table) u i :
  (exists r, find_id i T = Some r /\ elevated r) ->
  exists r, find_id i (bootstrap_upsert defaults now T u) = Some r /\ elevated r.
Proof.
  intros [r [Hr He]].
  destruct (Nat.eqb (users.id u) i) eqn:E.
  - apply Nat.eqb_eq in E. subst i. apply bootstrap_upsert_elevates.
  - apply Nat.eqb_neq in E. exists r. split; auto.
    unfold bootstrap_upsert, insert_on_conflict_id.
    assert (id (inserted defaults (bootstrap_values now u)) = users.id u)
      as Eid by reflexivity.
    rewrite Eid. destruct (existsb (has_id (users.id u)) T).
    + clear He. unfold find_id, update_where in *.
      induction T as [|x T IH]; simpl in *; [discriminate|].
      destruct (has_id i x) eqn:Ex.
      * apply has_id_true in Ex.
        assert (has_id (users.id u) x = false) as ->
            by (apply has_id_false; congruence).
        now rewrite (proj2 (has_id_true i x) Ex).
      * destruct (has_id (users.id u) x) eqn:Eu.
        -- assert (has_id i (assign (bootstrap_conflict now) x) = false)
             as -> by (apply has_id_false; apply has_id_false in Ex;
                       now rewrite assign_id_kept).
           auto.
        -- rewrite Ex. auto.
    + now apply find_id_app_some.
Qed.

Lemma bootstrap_upsert_others now (T : table) u r :
  In r T -> id r <> users.id u -> In r (bootstrap_upsert defaults now T u).
Proof.
  intros Hr Hne. unfold bootstrap_upsert, insert_on_conflict_id.
  destruct (existsb _ T).
  - unfold update_where. apply in_map_iff. exists r. split; auto.
    assert (has_id (id (inserted defaults (bootstrap_values now u))) r
            = false) as -> by (apply has_id_false; exact Hne).
    reflexivity.
  - apply in_or_app. now left.
Qed.

(** X7.  The block of the migration, on a table in which no profile row
    holds the reserved email: without a row of [auth.users] that holds
    it the block changes nothing; otherwise every such Principal has a
    profile row afterwards, with the role [super_admin], no organization,
    a verified email and the names Super Admin, and the rows whose id is
    not the id of such a Principal are as they were. *)
Theorem super_admin_block_creates_the_profile
    now (auth_users : list users.row) (T : table) :
  existsb (has_email SUPER_ADMIN_EMAIL) T = false ->
  ((forall u, In u auth_users -> users.email u <> SUPER_ADMIN_EMAIL) ->
   super_admin_block defaults now auth_users T = T)
  /\ (forall u, In u auth_users -> users.email u = SUPER_ADMIN_EMAIL ->
        exists r,
          find_id (users.id u) (super_admin_block defaults now auth_users T)
          = Some r
          /\ role r = super_admin /\ organization_id r = None
          /\ email_verified r = true
          /\ first_name r = "Super"%string /\ last_name r = "Admin"%string)
  /\ (forall r, In r T ->
        (forall u, In u auth_users -> users.email u = SUPER_ADMIN_EMAIL ->
                   users.id u <> id r) ->
        In r (super_admin_block defaults now auth_users T)).
Proof.
  intros Hnone. unfold super_admin_block. rewrite Hnone. simpl.
  change (fun acc u =>
            insert_on_conflict_id (inserted defaults (bootstrap_values now u))
                                  (assign (bootstrap_conflict now)) acc)
    with (bootstrap_upsert defaults now).
  remember (filter (fun u => String.eqb (users.email u) SUPER_ADMIN_EMAIL)
                   auth_users) as reserved eqn:Rdef.
  assert (forall u, In u reserved
                    <-> In u auth_users
                        /\ users.email u = SUPER_ADMIN_EMAIL) as R.
  { intros u. rewrite Rdef, filter_In, String.eqb_eq. tauto. }
  clear Rdef.
  split; [|split].
  - intros H. destruct reserved as [|u l]; auto.
    exfalso. destruct (proj1 (R u) (or_introl eq_refl)) as [H1 H2].
    now apply (H u).
  - intros u Hu Hem. assert (In u reserved) as Hr by (apply R; auto).
    clear R Hnone. revert T.
    induction reserved as [|v l IH]; intros T; [contradiction|].
    simpl. destruct Hr as [->|Hr]; auto.
    clear IH. generalize (bootstrap_upsert_elevates now T u).
    generalize (bootstrap_upsert defaults now T u). clear T.
    induction l as [|w l IH]; intros T H; simpl; auto.
    apply IH. now apply bootstrap_upsert_keeps_elevated.
  - intros r Hr Hother.
    assert (forall u, In u reserved -> users.id u <> id r) as H.
    { intros u Hu. apply R in Hu. destruct Hu. auto. }
    clear R Hother Hnone. revert T Hr.
    induction reserved as [|v l IH]; intros T Hr; simpl; auto.
    apply IH.
    + intros u Hu. apply H. now right.
    + apply bootstrap_upsert_others; auto.
      intros E. apply (H v); [now left | auto].
Qed.

(** X8.  The row that [getCurrentProfile] asks the store to insert for
    a Principal without profile is the row that the trigger inserts for
    it at the same instant, when the default of [organization_id] is
    null: the same role by the same test of the email, the names of the
    metadata, the same flags. *)
Theorem lazy_profile_is_the_trigger_profile now (u : users.row) (T : table) :
  organization_id defaults = None ->
  find_id (users.id u) T = None ->
  after_handle_new_user defaults None now u T
  = T ++ [inserted defaults (missing_profile_values now u)].
Proof.
  intros Horg Hmiss.
  rewrite after_handle_new_user_cases, Hmiss. f_equal. f_equal.
  unfold inserted, assign. simpl. rewrite Horg.
  destruct (String.eqb (users.email u) SUPER_ADMIN_EMAIL); reflexivity.
Qed.

End Again.

(** ** The facade, call by call *)

Section Calls.

Variable defaults : Profile.

(** X9.  [getCurrentProfile] and [ensureSuperAdmin] never throw, whatever
    the store and the authentication service answer.  Without a
    configured store or without a session [getCurrentProfile] returns
    null and sends nothing; without a configured store
    [ensureSuperAdmin] sends nothing. *)
Theorem reads_and_repairs_never_throw :
  (forall configured getSession f_select f_insert f_again now (T : table),
      exists r T',
        getCurrentProfile defaults configured getSession f_select f_insert
                          f_again now T = (Normal r, T')
        /\ (getCurrentUser configured getSession = None ->
            r = None /\ T' = T))
  /\ (forall configured c f_select f_update now (T : table),
         exists T',
           ensureSuperAdmin configured c f_select f_update now T
           = (Normal tt, T')
           /\ (configured = false -> T' = T)).
Proof.
  split.
  - intros configured getSession f_select f_insert f_again now T.
    rewrite getCurrentProfile_null. eauto.
  - intros configured c f_select f_update now T. unfold ensureSuperAdmin.
    destruct configured; simpl; [|unfold ret; eauto].
    unfold try_catch, bind, send, ret.
    destruct f_select; simpl;
      [destruct (and_then (select_where c (has_email SUPER_ADMIN_EMAIL) T)
                          maybeSingle)
         as [[p|]|e]; simpl;
       [destruct (negb (user_role_eqb (role p) super_admin)); simpl;
        [destruct f_update; simpl;
         [destruct (rls_update c (has_email SUPER_ADMIN_EMAIL)
                               (ensureSuperAdmin_values now) T); simpl
         | | ] | ] | | ] | | ];
      eexists; split; reflexivity || discriminate.
Qed.

(** X10.  No call of the facade from a browser changes [profiles], and
    [getCurrentProfile] returns null, whatever the table holds and
    whatever the answers: the requests of [getCurrentProfile], [signIn]
    and [updateProfile] are those of a session, and [ensureSuperAdmin]
    runs in a session or without one. *)
Theorem browser_calls_leave_profiles_as_they_are (T : table) :
  (forall configured getSession f_select f_insert f_again now,
      getCurrentProfile defaults configured getSession f_select f_insert
                        f_again now T = (Normal None, T))
  /\ (forall configured address auth f_update now,
         snd (signIn configured address auth f_update now T) = T)
  /\ (forall configured getSession profileData f_update now,
         snd (updateProfile configured getSession profileData f_update now T)
         = T)
  /\ (forall configured c f_select f_update now,
         c <> service_role ->
         snd (ensureSuperAdmin configured c f_select f_update now T) = T).
Proof.
  split; [intros; apply getCurrentProfile_null|].
  split; [intros; apply signIn_table|].
  split; [intros; apply updateProfile_table|].
  intros. now apply ensureSuperAdmin_table.
Qed.


(** X12.  [signIn] returns [success: true] exactly when the store is
    configured and the authentication service answered with data, which
    it then hands on; what becomes of the [last_login] update does not
    count.  A sign-in that fails writes nothing.  One that succeeds
    writes at most [last_login] and [updated_at] of the rows with the
    user's id. *)
Theorem signIn_succeeds_with_the_authentication
    configured address auth f_update now (T : table) :
  exists r T',
    signIn configured address auth f_update now T = (Normal r, T')
    /\ (success r = true
        <-> configured = true /\ exists d, auth = Normal (Data d))
    /\ (success r = true ->
        exists d, auth = Normal (Data d) /\ data r = Some d)
    /\ (success r = false -> T' = T)
    /\ (T' = T
        \/ exists u d,
             auth = Normal (Data d) /\ data_user d = Some u
             /\ T' = update_where (has_id (users.id u))
                      (fun x =>
                         {| id := id x; email := email x;
                            first_name := first_name x;
                            last_name := last_name x; role := role x;
                            organization_id := organization_id x;
                            email_verified := email_verified x;
                            is_active := is_active x;
                            last_login := Some now;
                            created_at := created_at x;
                            updated_at := now |}) T).
Proof.
  unfold signIn. destruct configured; simpl.
  2: { unfold ret. eexists; eexists; split; [reflexivity|]. simpl.
       repeat split; auto; try discriminate. intros [H _]; discriminate. }
  unfold try_catch, bind, await, send, ret.
  destruct auth as [[d|e]|e]; simpl.
  - destruct (data_user d) as [u|] eqn:Eu; simpl.
    + destruct f_update; simpl;
        (eexists; eexists; split; [reflexivity|]); simpl;
        repeat split; eauto; try discriminate.
    + eexists; eexists; split; [reflexivity|]. simpl.
      repeat split; eauto; discriminate.
  - destruct (message_includes e "Database error granting user");
      [|destruct (message_includes e "Invalid login credentials")];
      (eexists; eexists; split; [reflexivity|]); simpl;
      repeat split; auto; try discriminate;
      intros [_ [d H]]; discriminate.
  - eexists; eexists; split; [reflexivity|]. simpl.
    repeat split; auto; try discriminate. intros [_ [d H]]; discriminate.
Qed.


Lemma message_or_not_empty e fallback :
  fallback <> EmptyString -> message_or e fallback <> EmptyString.
Proof.
  intros H. unfold message_or.
  destruct (message e) as [[|a m]|]; simpl; auto. discriminate.
Qed.

(** X13.  When the authentication service answers a sign-in with an
    error, [signIn] returns a failure whose text is never empty and
    writes nothing.  An error that mentions "Database error granting
    user" is reported with the fixed text about the database, before any
    other test; else one that mentions "Invalid login credentials" with
    the fixed text about the credentials; any other with its own message,
    or with "Login failed. Please try again." when it has none. *)
Theorem signIn_reports_an_authentication_error
    address (e : js_error) f_update now (T : table) :
  exists m,
    signIn true address (Normal (Err e)) f_update now T
    = (Normal (failure (Some m)), T)
    /\ m <> EmptyString
    /\ (message_includes e "Database error granting user" = true ->
        m = database_issue_message)
    /\ (message_includes e "Database error granting user" = false ->
        message_includes e "Invalid login credentials" = true ->
        m = "Invalid email or password. Please check your credentials and try again."%string)
    /\ (message_includes e "Database error granting user" = false ->
        message_includes e "Invalid login credentials" = false ->
        m = match message e with
            | Some (String a rest) => String a rest
            | _ => "Login failed. Please try again."%string
            end).
Proof.
  unfold signIn. run_facade.
  destruct (message_includes e "Database error granting user");
    [|destruct (message_includes e "Invalid login credentials")];
    (eexists; split; [reflexivity|]);
    (split; [try discriminate|]);
    try (repeat split; intros; try discriminate; reflexivity).
  - apply message_or_not_empty. discriminate.
  - repeat split; intros; try discriminate.
    unfold message_or. destruct (message e) as [[|a m]|]; reflexivity.
Qed.

(** X14.  [signUp] returns [success: true] exactly when the store is
    configured and the authentication service answered with data.  A
    sign-up that fails writes nothing, and so does one whose answer
    carries no user.  One with a user never changes, adds or removes a
    profile row of another id. *)
Theorem signUp_succeeds_with_the_authentication
    configured address firstName lastName organizationName auth org
    f_upsert now (T : table) :
  exists r T',
    signUp defaults configured address firstName lastName organizationName
           auth org f_upsert now T = (Normal r, T')
    /\ (success r = true
        <-> configured = true /\ exists d, auth = Normal (Data d))
    /\ (success r = false -> T' = T)
    /\ (forall d, auth = Normal (Data d) -> data_user d = None -> T' = T)
    /\ (forall d u, auth = Normal (Data d) -> data_user d = Some u ->
          filter (fun x => negb (has_id (users.id u) x)) T'
          = filter (fun x => negb (has_id (users.id u) x)) T).
Proof.
  pose proof (signUp_table defaults configured address firstName lastName
                organizationName auth org f_upsert now T) as Tab.
  revert Tab. unfold signUp. destruct configured; simpl.
  2: { unfold ret. intros _. eexists; eexists; split; [reflexivity|]. simpl.
       repeat split; auto; try discriminate. intros [H _]; discriminate. }
  unfold try_catch, bind, await, ret.
  destruct auth as [[d|e]|e]; simpl.
  - destruct (data_user d) as [u|] eqn:Eu; simpl.
    + destruct (signUp_organization_table organizationName org T)
        as [oid E].
      rewrite E. destruct (signUp_role address oid) as [userRole oid'].
      unfold send.
      destruct f_upsert; destruct (data_session d); simpl; intros _;
        (eexists; eexists; split; [reflexivity|]); simpl;
        repeat split; eauto; try discriminate.
    + intros _. eexists; eexists; split; [reflexivity|]. simpl.
      repeat split; eauto; try discriminate.
  - destruct (message_includes e "Database error"); intros _;
      (eexists; eexists; split; [reflexivity|]); simpl;
      repeat split; auto; try discriminate;
      intros [_ [d H]]; discriminate.
  - intros _. eexists; eexists; split; [reflexivity|]. simpl.
    repeat split; auto; try discriminate. intros [_ [d H]]; discriminate.
Qed.

(** X15.  [updateProfile] without a session returns the failure "No
    authenticated user" and sends nothing.  In a session its update is
    answered with the error 42P17: it returns the failure with the
    message of that error and the table stays as it was.  Whatever the
    answer, it leaves alone every row whose id is not the id of the
    session's Principal, whatever columns it is given. *)
Theorem updateProfile_stays_with_the_own_row
    configured getSession (profileData : Columns) f_update now (T : table) :
  (getCurrentUser configured getSession = None ->
   updateProfile configured getSession profileData f_update now T
   = (Normal (failure (Some "No authenticated user"%string)), T))
  /\ (forall u, getCurrentUser configured getSession = Some u ->
        updateProfile configured getSession profileData no_fault now T
        = (Normal (failure (message infinite_recursion)), T))
  /\ (forall u x, getCurrentUser configured getSession = Some u ->
        In x T -> id x <> users.id u ->
        In x (snd (updateProfile configured getSession profileData
                                 f_update now T))).
Proof.
  split; [|split].
  - intros H. unfold updateProfile. rewrite H. reflexivity.
  - intros u Hu. unfold updateProfile. rewrite Hu. reflexivity.
  - intros u x Hu Hx Hne. now rewrite updateProfile_table.
Qed.

Lemma filter_update_where_outside (keep w : Profile -> bool) set (T : table) :
  (forall r, w r = true -> keep r = false /\ keep (set r) = false) ->
  filter keep (update_where w set T) = filter keep T.
Proof.
  intros H. unfold update_where. induction T as [|r T IH]; simpl; auto.
  destruct (w r) eqn:E.
  - destruct (H r E) as [-> ->]. apply IH.
  - now rewrite IH.
Qed.

(** X16.  [ensureSuperAdmin] changes only rows that hold the reserved
    email: every other row stays as it is, no row is added or removed,
    and no row changes its [id] or its [email]. *)
Theorem ensureSuperAdmin_touches_the_reserved_rows_only
    configured c f_select f_update now (T : table) :
  map id (snd (ensureSuperAdmin configured c f_select f_update now T))
  = map id T
  /\ map email (snd (ensureSuperAdmin configured c f_select f_update now T))
     = map email T
  /\ filter (fun x => negb (has_email SUPER_ADMIN_EMAIL x))
            (snd (ensureSuperAdmin configured c f_select f_update now T))
     = filter (fun x => negb (has_email SUPER_ADMIN_EMAIL x)) T.
Proof.
  assert (snd (ensureSuperAdmin configured c f_select f_update now T) = T
          \/ exists w',
               snd (ensureSuperAdmin configured c f_select f_update now T)
               = update_where w' (assign (ensureSuperAdmin_values now)) T
               /\ forall r, w' r = true
                            -> has_email SUPER_ADMIN_EMAIL r = true)
    as [-> | (w' & -> & Hw)]; auto.
  { unfold ensureSuperAdmin. destruct configured; simpl; auto.
    unfold try_catch, bind, send, ret.
    destruct f_select; simpl; auto.
    destruct (and_then (select_where c (has_email SUPER_ADMIN_EMAIL) T)
                       maybeSingle)
      as [[p|]|e]; simpl; auto.
    destruct (negb (user_role_eqb (role p) super_admin)); simpl; auto.
    destruct f_update; simpl; auto.
    pose proof (rls_update_table c (has_email SUPER_ADMIN_EMAIL)
                  (ensureSuperAdmin_values now) T) as K.
    destruct (rls_update c (has_email SUPER_ADMIN_EMAIL)
                         (ensureSuperAdmin_values now) T); simpl in *; auto. }
  split; [|split].
  - apply update_where_ids. reflexivity.
  - unfold update_where. rewrite map_map. apply map_ext. intros r.
    destruct (w' r); reflexivity.
  - apply filter_update_where_outside. intros r Hr.
    apply Hw in Hr. unfold has_email in *. simpl. now rewrite Hr.
Qed.

End Calls.

(** ** [src/lib/supabase.js] *)

(** X17.  [isSupabaseConfigured] answers true exactly when the client
    was created with neither placeholder; the client then has the two
    environment values themselves. *)
Theorem configured_means_no_placeholder (supabaseUrl supabaseAnonKey : option string) :
  (isSupabaseConfigured supabaseUrl supabaseAnonKey = true
   <-> client_url supabaseUrl <> "https://placeholder.supabase.co"%string
       /\ client_key supabaseAnonKey <> "placeholder-key"%string)
  /\ (isSupabaseConfigured supabaseUrl supabaseAnonKey = true ->
      supabaseUrl = Some (client_url supabaseUrl)
      /\ supabaseAnonKey = Some (client_key supabaseAnonKey)).
Proof.
  unfold isSupabaseConfigured, client_url, client_key.
  destruct supabaseUrl as [[|a u]|], supabaseAnonKey as [[|b k]|];
    cbn [truthy coalesce andb negb];
    try (split; [split; [discriminate | intros [H1 H2]; congruence]
                | discriminate]).
  rewrite andb_true_iff, !negb_true_iff, !String.eqb_neq.
  split; [tauto | auto].
Qed.

Lemma filter_filter {A : Type} (f g : A -> bool) (l : list A) :
  filter f (filter g l) = filter (fun x => g x && f x) l.
Proof.
  induction l as [|x l IH]; simpl; auto.
  destruct (g x); simpl; [destruct (f x)|]; now rewrite IH.
Qed.

Lemma filter_true {A : Type} (l : list A) : filter (fun _ => true) l = l.
Proof. induction l as [|x l IH]; simpl; congruence. Qed.

Lemma clear_auth_keys (ks : list string) (st : Storage) :
  fold_left
    (fun st key => if auth_key key then removeItem key st else st) ks st
  = filter (fun kv => negb (auth_key (fst kv)
                            && existsb (String.eqb (fst kv)) ks)) st.
Proof.
  revert st. induction ks as [|k ks IH]; intros st; simpl.
  - rewrite (filter_ext _ (fun _ => true)).
    + symmetry. apply filter_true.
    + intros kv. now rewrite andb_false_r.
  - rewrite IH.
    assert ((if auth_key k then removeItem k st else st)
            = filter (fun kv => negb (auth_key k && String.eqb (fst kv) k))
                     st) as ->.
    { destruct (auth_key k); simpl;
        [reflexivity | symmetry; apply filter_true]. }
    rewrite filter_filter. apply filter_ext. intros kv.
    destruct (String.eqb (fst kv) k) eqn:E; simpl.
    + apply String.eqb_eq in E. rewrite E.
      destruct (auth_key k); simpl; auto.
    + rewrite andb_false_r. reflexivity.
Qed.

(** X18.  After [clearInvalidSession], when the sign-out did not throw,
    [localStorage] holds exactly its entries whose key neither starts
    with "sb-" nor contains "supabase", in their order and with their
    values; [sessionStorage] loses the entry "supabase.auth.token" only.
    When the sign-out throws, both storages stay as they were.  A second
    run changes nothing. *)
Theorem clearInvalidSession_clears_the_auth_keys
    (answer : response unit) (e : js_error)
    (again : completion (response unit))
    (localStorage sessionStorage : Storage) :
  clearInvalidSession (Normal answer) localStorage sessionStorage
  = (filter (fun kv => negb (auth_key (fst kv))) localStorage,
     filter (fun kv => negb (String.eqb (fst kv) "supabase.auth.token"))
            sessionStorage)
  /\ clearInvalidSession (Throw e) localStorage sessionStorage
     = (localStorage, sessionStorage)
  /\ clearInvalidSession again
       (fst (clearInvalidSession (Normal answer) localStorage
                                 sessionStorage))
       (snd (clearInvalidSession (Normal answer) localStorage
                                 sessionStorage))
     = clearInvalidSession (Normal answer) localStorage sessionStorage.
Proof.
  assert (forall answer (l s : Storage),
            clearInvalidSession (Normal answer) l s
            = (filter (fun kv => negb (auth_key (fst kv))) l,
               filter (fun kv =>
                         negb (String.eqb (fst kv) "supabase.auth.token"))
                      s)) as Clear.
  { intros answer0 l s. unfold clearInvalidSession. f_equal.
    fold auth_key.
    change (fun st key =>
              if prefix "sb-" key || includes key "supabase"
              then removeItem key st else st)
      with (fun st key => if auth_key key then removeItem key st else st).
    rewrite clear_auth_keys. unfold removeItem. rewrite filter_filter.
    apply filter_ext_in. intros kv Hkv.
    destruct (String.eqb (fst kv) "supabase.auth.token") eqn:E; simpl.
    - apply String.eqb_eq in E. rewrite E. reflexivity.
    - assert (existsb (String.eqb (fst kv))
                      (keys (filter (fun kv0 =>
                                       negb (String.eqb (fst kv0)
                                               "supabase.auth.token")) l))
              = true) as ->.
      { apply existsb_exists. exists (fst kv). split.
        - unfold keys. apply in_map. apply filter_In. split; auto.
          now rewrite E.
        - apply String.eqb_refl. }
      now rewrite andb_true_r. }
  split; [apply Clear|]. split; [reflexivity|].
  rewrite Clear. simpl. destruct again as [a|e']; [|reflexivity].
  rewrite Clear, !filter_filter. f_equal; apply filter_ext; intros kv.
  - now destruct (auth_key (fst kv)).
  - now destruct (String.eqb (fst kv) "supabase.auth.token").
Qed.

(** X19.  [testConnection] never throws and writes nothing.  It reports
    success exactly when the store is configured and its query is
    answered with data; without a configured store it reports "Supabase
    not configured" and does not look at the query. *)
Theorem testConnection_reports_the_query
    configured (query : completion (response unit)) (T : table) :
  exists r,
    testConnection configured query T = (Normal r, T)
    /\ (success r = true
        <-> configured = true /\ exists d, query = Normal (Data d))
    /\ (configured = false ->
        r = failure (Some "Supabase not configured"%string)).
Proof.
  unfold testConnection. destruct configured; run_facade.
  - destruct query as [[d|e]|e]; simpl;
      (eexists; split; [reflexivity|]); simpl;
      repeat split; eauto; try discriminate;
      intros [_ [d' H]]; discriminate.
  - eexists; split; [reflexivity|]. simpl.
    repeat split; auto; try discriminate. intros [H _]; discriminate.
Qed.

(** ** The slug of an organization *)

Lemma slug_map_units (s : string) : slug s = map_units slug_unit s.
Proof.
  unfold slug, replace_non_slug, toLowerCase.
  induction s as [|a s IH]; simpl; [reflexivity|].
  unfold slug_unit at 1. now rewrite IH.
Qed.

Lemma slug_unit_facts (a : ascii) :
  (is_slug_unit (slug_unit a) = true \/ slug_unit a = "-"%char)
  /\ slug_unit (slug_unit a) = slug_unit a
  /\ slug_unit (toLowerCase_unit a) = slug_unit a.
Proof.
  destruct a as [[] [] [] [] [] [] [] []]; vm_compute; auto.
Qed.

(** X20.  The slug that [signUp] derives from an organization name has
    the length of the name; each of its characters is a lower-case
    letter, a digit or a hyphen; it does not depend on the case of the
    name; and the slug of a slug is that slug, so that a name and its
    slug, when they differ, are two names with one slug. *)
Theorem slug_of_an_organization_name (organizationName : string) :
  String.length (slug organizationName) = String.length organizationName
  /\ (forall a, In a (list_ascii_of_string (slug organizationName)) ->
        is_slug_unit a = true \/ a = "-"%char)
  /\ slug (toLowerCase organizationName) = slug organizationName
  /\ slug (slug organizationName) = slug organizationName.
Proof.
  rewrite !slug_map_units.
  assert (map_units slug_unit (map_units slug_unit organizationName)
          = map_units slug_unit organizationName) as Idem.
  { induction organizationName as [|a s IH]; simpl; [reflexivity|].
    rewrite IH. now rewrite (proj1 (proj2 (slug_unit_facts a))). }
  split; [|split; [|split]]; [| | |exact Idem].
  - clear Idem.
    induction organizationName as [|a s IH]; simpl; congruence.
  - clear Idem.
    induction organizationName as [|a s IH]; simpl; [tauto|].
    intros b [<-|Hb]; auto. apply slug_unit_facts.
  - clear Idem. unfold toLowerCase.
    induction organizationName as [|a s IH]; simpl; [reflexivity|].
    rewrite IH. now rewrite (proj2 (proj2 (slug_unit_facts a))).
Qed.

(** ** The login page *)

Lemma configured_truthy url key :
  isSupabaseConfigured url key = true ->
  truthy url = true /\ truthy key = true.
Proof.
  unfold isSupabaseConfigured.
  destruct (truthy url), (truthy key); simpl; auto; discriminate.
Qed.

Lemma from_path_not_empty pathname : from_path pathname <> EmptyString.
Proof.
  unfold from_path. destruct pathname as [[|a p]|]; simpl; discriminate.
Qed.

(** X21.  [handleSubmit] never throws.  It navigates exactly when the
    store is configured, the connection test is answered with data and
    the authentication service answers the sign-in with data; it then
    shows the success toast and goes to "/dashboard" for the reserved
    email and to the page the user came from otherwise.  In every other
    case it shows an error toast with a text.  Without a configured
    store it writes nothing and does not depend on the answer of the
    authentication service. *)
Theorem handleSubmit_navigates_after_three_checks
    (url key : option string) (address : string) (pathname : option string)
    (query : completion (response unit))
    (auth : completion (response AuthData)) (f_update : fault)
    (now : timestamptz) (T : table) :
  exists r T',
    handleSubmit url key address pathname query auth f_update now T
    = (Normal r, T')
    /\ (navigated r <> None
        <-> isSupabaseConfigured url key = true
            /\ (exists d, query = Normal (Data d))
            /\ (exists d, auth = Normal (Data d)))
    /\ (forall path, navigated r = Some path ->
          shown r = toast_success "Login successful!"
          /\ path <> EmptyString
          /\ path = (if String.eqb address SUPER_ADMIN_EMAIL
                     then "/dashboard"%string else from_path pathname))
    /\ (navigated r = None ->
        T' = T /\ exists m, shown r = toast_error m /\ m <> EmptyString)
    /\ (isSupabaseConfigured url key = false ->
        forall auth' f_update',
          handleSubmit url key address pathname query auth' f_update' now T
          = (Normal r, T)).
Proof.
  pose proof (configured_truthy url key) as Htr.
  unfold handleSubmit.
  destruct (isSupabaseConfigured url key) eqn:Hcfg.
  - destruct (Htr eq_refl) as [-> ->]. run_facade.
    destruct query as [[q|e]|e]; simpl.
    2, 3: (eexists; eexists; split; [reflexivity|]); settle.
    unfold signIn. run_facade.
    destruct auth as [[d|e]|e]; simpl.
    + destruct (data_user d) as [u|]; simpl;
        [destruct f_update; simpl;
         [destruct (rls_update (authenticated (users.id u))
                               (has_id (users.id u))
                               (last_login_values now) T) as [x T1];
          simpl | | ] | ];
        (eexists; eexists; split; [reflexivity|]); settle.
      all: match goal with
           | H : Some _ = Some ?p |- ?p <> _ =>
               inversion H;
               destruct (String.eqb address SUPER_ADMIN_EMAIL);
               [discriminate | apply from_path_not_empty]
           end.
    + destruct (message_includes e "Database error granting user");
        [|destruct (message_includes e "Invalid login credentials")];
        simpl; (eexists; eexists; split; [reflexivity|]); settle.
    + (eexists; eexists; split; [reflexivity|]); settle.
  - destruct (truthy url), (truthy key); run_facade;
      (eexists; eexists; split; [reflexivity|]); settle.
Qed.


(** * Instances of the further properties *)

(** X5: the profile of the admin of Acme. *)
Lemma get_user_profile_returns_the_joined_row_witness :
  map user_profile.organization_name
      (get_user_profile sample_organizations sample_table (Some (id alice)))
  = [Some "Acme"%string].
Proof.
  destruct (get_user_profile_returns_the_joined_row
              sample_organizations sample_table sample_table_pk)
    as (_ & _ & H & _).
  - repeat constructor; simpl; intuition discriminate.
  - rewrite (H alice (proj1 in_sample_table)). reflexivity.
Defined.

(** X7: the reserved Principal exists and has no profile yet. *)
Lemma super_admin_block_creates_the_profile_witness :
  exists r,
    find_id (users.id root_user)
      (super_admin_block sample_defaults 9 [bob_user; root_user] [bob])
    = Some r
    /\ role r = super_admin /\ organization_id r = None
    /\ email_verified r = true
    /\ first_name r = "Super"%string /\ last_name r = "Admin"%string.
Proof.
  apply (proj1 (proj2 (super_admin_block_creates_the_profile
                         sample_defaults 9 [bob_user; root_user] [bob]
                         eq_refl))).
  - simpl. auto.
  - reflexivity.
Defined.

(** X9: without a configured store. *)
Lemma reads_and_repairs_never_throw_witness :
  getCurrentProfile sample_defaults false (Normal (Data (Some bob_user)))
                    no_fault no_fault no_fault 4 [alice]
  = (Normal None, [alice]).
Proof.
  destruct (proj1 (reads_and_repairs_never_throw sample_defaults)
              false (Normal (Data (Some bob_user))) no_fault no_fault
              no_fault 4 [alice]) as (r & T' & E & H).
  destruct (H eq_refl) as [-> ->]. exact E.
Defined.

(** X12: the update of [last_login] is refused and the sign-in
    succeeds. *)
Lemma signIn_succeeds_with_the_authentication_witness :
  exists r T',
    signIn true "bob@co.com" (Normal (Data (mkAuthData (Some bob_user) true)))
           (refused insufficient_privilege) 9 sample_table
    = (Normal r, T')
    /\ success r = true.
Proof.
  destruct (signIn_succeeds_with_the_authentication true "bob@co.com"
              (Normal (Data (mkAuthData (Some bob_user) true)))
              (refused insufficient_privilege) 9 sample_table)
    as (r & T' & E & Hs & _).
  exists r, T'. split; [exact E|]. apply Hs. split; [reflexivity|].
  eexists. reflexivity.
Defined.

(** X13 *)
Lemma signIn_reports_an_authentication_error_witness :
  signIn true "bob@co.com"
         (Normal (Err {| code := Some "invalid_credentials"%string;
                         message :=
                           Some "Invalid login credentials"%string |}))
         no_fault 9 sample_table
  = (Normal (failure (Some
       "Invalid email or password. Please check your credentials and try again."%string)),
     sample_table).
Proof.
  destruct (signIn_reports_an_authentication_error "bob@co.com"
              {| code := Some "invalid_credentials"%string;
                 message := Some "Invalid login credentials"%string |}
              no_fault 9 sample_table)
    as (m & E & _ & _ & H & _).
  rewrite E, (H eq_refl eq_refl). reflexivity.
Defined.

(** X14 *)
Lemma signUp_succeeds_with_the_authentication_witness :
  exists r T',
    signUp sample_defaults true "bob@co.com" None None None
           (Normal (Data (mkAuthData (Some bob_user) true)))
           (Throw (new_Error "offline")) (refused insufficient_privilege)
           9 sample_table
    = (Normal r, T')
    /\ success r = true
    /\ filter (fun x => negb (has_id (users.id bob_user) x)) T'
       = [alice; carol; dave; root].
Proof.
  destruct (signUp_succeeds_with_the_authentication sample_defaults true
              "bob@co.com" None None None
              (Normal (Data (mkAuthData (Some bob_user) true)))
              (Throw (new_Error "offline"))
              (refused insufficient_privilege) 9 sample_table)
    as (r & T' & E & Hs & _ & _ & Hf).
  exists r, T'. split; [exact E|]. split.
  - apply Hs. split; [reflexivity|]. eexists. reflexivity.
  - rewrite (Hf _ bob_user eq_refl eq_refl). reflexivity.
Defined.

(** X17 *)
Lemma configured_means_no_placeholder_witness :
  isSupabaseConfigured (Some "https://abcd.supabase.co"%string)
                       (Some "anon"%string) = true
  /\ isSupabaseConfigured (Some "https://placeholder.supabase.co"%string)
                          (Some "anon"%string) <> true.
Proof.
  split.
  - apply (proj1 (configured_means_no_placeholder
                    (Some "https://abcd.supabase.co"%string)
                    (Some "anon"%string))).
    split; discriminate.
  - intros H.
    apply (proj1 (configured_means_no_placeholder
                    (Some "https://placeholder.supabase.co"%string)
                    (Some "anon"%string))) in H.
    destruct H as [H _]. apply H. reflexivity.
Defined.

(** X19 *)
Lemma testConnection_reports_the_query_witness :
  exists r,
    testConnection true (Normal (Data tt)) sample_table
    = (Normal r, sample_table)
    /\ success r = true.
Proof.
  destruct (testConnection_reports_the_query true (Normal (Data tt))
              sample_table) as (r & E & Hs & _).
  exists r. split; [exact E|]. apply Hs. split; [reflexivity|].
  eexists. reflexivity.
Defined.

(** X20: the slug of "Acme Inc." *)
Lemma slug_of_an_organization_name_witness :
  slug "Acme Inc." = "acme-inc-"%string
  /\ forall a, In a (list_ascii_of_string "acme-inc-") ->
        is_slug_unit a = true \/ a = "-"%char.
Proof.
  split; [reflexivity|].
  exact (proj1 (proj2 (slug_of_an_organization_name "Acme Inc."))).
Defined.

(** X21: the reserved identity signs in from a page of its own. *)
Lemma handleSubmit_navigates_after_three_checks_witness :
  exists r T',
    handleSubmit (Some "https://abcd.supabase.co"%string)
                 (Some "anon"%string) SUPER_ADMIN_EMAIL
                 (Some "/settings"%string) (Normal (Data tt))
                 (Normal (Data (mkAuthData (Some root_user) true)))
                 no_fault 9 sample_table
    = (Normal r, T')
    /\ navigated r <> None
    /\ forall path, navigated r = Some path -> path = "/dashboard"%string.
Proof.
  destruct (handleSubmit_navigates_after_three_checks
              (Some "https://abcd.supabase.co"%string)
              (Some "anon"%string) SUPER_ADMIN_EMAIL
              (Some "/settings"%string) (Normal (Data tt))
              (Normal (Data (mkAuthData (Some root_user) true)))
              no_fault 9 sample_table)
    as (r & T' & E & Hn & Hp & _).
  exists r, T'. split; [exact E|]. split.
  - apply Hn. split; [reflexivity|]. split; eexists; reflexivity.
  - intros path H. destruct (Hp path H) as (_ & _ & ->). reflexivity.
Defined.

(** X3 *)
Lemma nothing_is_reached_without_a_session_witness :
  rls_update anon (has_id 2) (last_login_values 9) sample_table
  = (Data [], sample_table).
Proof.
  apply (proj1 (proj2 (proj2 (proj2
           (nothing_is_reached_without_a_session sample_defaults
              sample_table))))).
  exact sample_table_pk.
Defined.

(** X4: a manager and a row of its organization. *)
Lemma analytics_access_witness :
  holds (authenticated (id dave)) sample_table analytics_org_access_using
        (analytics.mk (Some 20) "runs" None []) = true
  /\ analytics_org_access (authenticated (id dave)) sample_table
        (analytics.mk (Some 20) "runs" None [])
     = Err infinite_recursion.
Proof.
  destruct (analytics_access sample_table
              (analytics.mk (Some 20) "runs" None [])) as (H1 & _ & H3).
  split; [|apply H1].
  apply (proj2 (proj1 (H3 dave sample_table_pk
                          (proj1 (proj2 (proj2 (proj2 in_sample_table))))))).
  right. exists 20. split; reflexivity.
Defined.

(** X8 *)
Lemma lazy_profile_is_the_trigger_profile_witness :
  after_handle_new_user sample_defaults None 4 bob_user [alice]
  = [alice; inserted sample_defaults (missing_profile_values 4 bob_user)].
Proof.
  apply (lazy_profile_is_the_trigger_profile sample_defaults 4 bob_user
           [alice]); reflexivity.
Defined.

(** X10: [ensureSuperAdmin] in the session of the reserved identity,
    whose row has a wrong role. *)
Lemma browser_calls_leave_profiles_as_they_are_witness :
  snd (ensureSuperAdmin true (authenticated 5) no_fault no_fault 9
         [demoted_root; bob])
  = [demoted_root; bob].
Proof.
  apply (proj2 (proj2 (proj2
           (browser_calls_leave_profiles_as_they_are sample_defaults
              [demoted_root; bob])))).
  discriminate.
Defined.


(** X15: without a session, and in the session of a user. *)
Lemma updateProfile_stays_with_the_own_row_witness :
  updateProfile true (Normal (Data None)) no_columns no_fault 9 sample_table
  = (Normal (failure (Some "No authenticated user"%string)), sample_table)
  /\ updateProfile true (Normal (Data (Some bob_user))) no_columns no_fault
                    9 sample_table
     = (Normal (failure (message infinite_recursion)), sample_table).
Proof.
  split.
  - apply (proj1 (updateProfile_stays_with_the_own_row true
                    (Normal (Data None)) no_columns no_fault 9
                    sample_table)).
    reflexivity.
  - apply (proj1 (proj2 (updateProfile_stays_with_the_own_row true
                    (Normal (Data (Some bob_user))) no_columns no_fault 9
                    sample_table)) bob_user).
    reflexivity.
Defined.
